(** * ec2-reaper: idleness window, aggregation and threshold passes

    A shallow embedding of [reaper.py] and [ebs.py].

    Numbers.  Timestamps are [datetime] values; they are modelled as a count
    of microseconds ([Z]), which is the resolution of [datetime] and of
    [timedelta].  Metric averages, activity floors and idle hours are Python
    floats (or the ints [-1] and [0]); they are modelled as exact rationals
    ([Q]) and compared with [Qeq], [Qlt] and [Qle], as Python compares
    numbers by value.  The one arithmetic step of the program on them,
    [total_seconds() / 3600], is therefore exact here.

    Remote services.  The EC2 and CloudWatch endpoints are a read-only
    snapshot taken for one pass: the answer to a request depends on the
    request only.  Every remote call and every line printed is appended to a
    log, so that the order of effects can be stated. *)

From Stdlib Require Import ZArith QArith Qminmax List Ascii String Bool Lia Lqa.
From Stdlib Require Import Permutation Sorted.
Import ListNotations.

Local Open Scope string_scope.
Local Open Scope list_scope.
Local Open Scope Z_scope.

(** ** Module constants (reaper.py 14-21, ebs.py 6-11) *)

Definition REPORTING_PERIOD_SECS : Z := 5 * 60.
Definition REPORTING_LOOKBACK_TIME_HOURS : Z := 48.

Definition MAX_AVAILABLE : Z := 20.
Definition MAX_IN_USE_OVER_200GB : Z := 10.
Definition MAX_EBS_SIZE : Z := 10 * 1000.

(** ** Time *)

(** A [datetime], in microseconds since the epoch. *)
Definition Timestamp := Z.

(** [timedelta(seconds=s)], in microseconds. *)
Definition timedelta_seconds (s : Z) : Z := s * 1000000.

(** [td.total_seconds() / 3600] for a [timedelta] of [us] microseconds. *)
Definition hours_of_timedelta (us : Z) : Q := us # 3600000000.

(** ** Python numeric helpers *)

(** [a < b] on numbers. *)
Definition Qltb (a b : Q) : bool := negb (Qle_bool b a).

(** [max(a, b)]: the first of the largest arguments. *)
Definition py_max (a b : Q) : Q := if Qltb a b then b else a.

(** [min(a, b, c)]: the first of the smallest arguments. *)
Definition py_min3 (a b c : Q) : Q :=
  let m := if Qltb b a then b else a in
  if Qltb c m then c else m.

(** ** Idle window of one metric (reaper.py 139-167) *)

Record Datapoint := mkDatapoint {
  dp_Timestamp : Timestamp;
  dp_Average : Q
}.

(** [idle_periods.sort(reverse=True)]: on timestamps, which are compared by
    value, every descending sort gives the same list. *)
Fixpoint insert_desc (t : Timestamp) (l : list Timestamp) : list Timestamp :=
  match l with
  | [] => [t]
  | u :: l' => if u <=? t then t :: l else u :: insert_desc t l'
  end.

Fixpoint sort_reverse (l : list Timestamp) : list Timestamp :=
  match l with
  | [] => []
  | t :: l' => insert_desc t (sort_reverse l')
  end.

(** Lines 145-147: the timestamps of the datapoints strictly below the floor,
    in response order. *)
Definition idle_timestamps (datapoints : list Datapoint) (idle_threshold : Q)
  : list Timestamp :=
  map dp_Timestamp
      (filter (fun dp => Qltb (dp_Average dp) idle_threshold) datapoints).

(** Lines 156-162: the loop over [zip(idle_periods[:-1], idle_periods[1:])].
    The argument is the descending list; consecutive elements are the pairs
    [(cur, prev)].  [idle_start] is the value assigned before the loop, kept
    when the loop ends without a [break]. *)
Fixpoint find_idle_start (idle_periods : list Timestamp) (idle_start : Timestamp)
  : Timestamp :=
  match idle_periods with
  | cur :: ((prev :: _) as rest) =>
      if timedelta_seconds REPORTING_PERIOD_SECS <? cur - prev
      then cur
      else find_idle_start rest idle_start
  | _ => idle_start
  end.

(** Lines 139-167, on the [Datapoints] of the response.  [t0] only serves as
    the default of [hd] and [last] on a list that is not empty there. *)
Definition idle_period_of_datapoints (datapoints : list Datapoint) (idle_threshold : Q)
  : Q :=
  match datapoints with
  | [] => -1
  | _ :: _ =>
      match idle_timestamps datapoints idle_threshold with
      | [] => 0
      | t0 :: _ =>
          let idle_periods :=
            sort_reverse (idle_timestamps datapoints idle_threshold) in
          let idle_start :=
            find_idle_start idle_periods (last idle_periods t0) in
          hours_of_timedelta (hd t0 idle_periods - idle_start)
      end
  end%Q.

(** ** Text

    The program builds its messages with f-strings.  A text is kept as the
    list of its pieces, so that numbers are not rendered to decimal. *)

Inductive Frag :=
| FStr (s : string)
| FInt (n : Z) (format_spec : string)
| FNum (x : Q) (format_spec : string).

Definition Text := list Frag.

(** A [str] is kept as the bytes of its UTF-8 encoding.  [len(s)] counts
    code points: the bytes that do not continue a character, that is all
    bytes but those of the form [10xxxxxx]. *)
Definition is_continuation_byte (c : ascii) : bool :=
  match c with
  | Ascii _ _ _ _ _ _ b6 b7 => b7 && negb b6
  end.

Fixpoint len (s : string) : nat :=
  match s with
  | EmptyString => O
  | String c s' => ((if is_continuation_byte c then 0 else 1) + len s')%nat
  end.

(** [f'{s:<width>s}'] for a [str]: left-justified, padded with spaces up to
    [width] code points. *)
Fixpoint spaces (n : nat) : string :=
  match n with
  | O => EmptyString
  | S n' => String " "%char (spaces n')
  end.

Definition ljust (width : nat) (s : string) : string :=
  (s ++ spaces (width - len s))%string.

(** [f'{x}'] for a value that is a [str] or [None]. *)
Definition str_of_optional (x : option string) : string :=
  match x with
  | Some s => s
  | None => "None"
  end.

(** ** Effects *)

Inductive exn :=
| Exception (msg : Text)
| TypeError (msg : string)
| KeyError (key : string).

Record Payload := mkPayload {
  payload_text : Text;
  payload_username : string;
  payload_icon_emoji : string;
  payload_channel : option string
}.

(** What one run does to the outside, in order.  The last two are written
    by the recording callbacks below, which stand for the callbacks a caller
    of [reaper] passes in. *)
Inductive Event :=
| ec2_describe_instances (NextToken : string)
| ec2_describe_volumes (NextToken : option string)
| cw_get_metric_statistics (InstanceId MetricName Unit : string)
| requests_post (webhook : string) (data : Payload)
| print (line : Text)
| warning_recorded (InstanceId : string)
| stop_recorded (InstanceId : string).

Record Tag := mkTag { Key : string; Value : string }.

Record InstanceState := mkInstanceState { State_Name : string; State_Code : Z }.

(** One element of [reservation['Instances']].  The ['Tags'] key may be
    absent from the dictionary. *)
Record InstanceDict := mkInstanceDict {
  InstanceId : string;
  InstanceType : string;
  State : InstanceState;
  Tags : option (list Tag)
}.

Record DescribeInstancesResponse := mkDescribeInstancesResponse {
  Reservations : list (list InstanceDict);
  instances_NextToken : option string
}.

(** One element of [resp['Volumes']]. *)
Record VolumeDict := mkVolumeDict {
  VolumeId : string;
  Size : Z;
  volume_State : string;
  volume_Tags : option (list Tag)
}.

Record DescribeVolumesResponse := mkDescribeVolumesResponse {
  Volumes : list VolumeDict;
  volumes_NextToken : option string
}.

(** The process environment and the remote endpoints, as seen by one run. *)
Record Env := mkEnv {
  environ_SLACK_WEB_HOOK : option string;
  environ_SLACK_CHANNEL : option string;
  describe_instances : string -> DescribeInstancesResponse;
  describe_volumes : option string -> DescribeVolumesResponse;
  get_metric_statistics : string -> string -> string -> list Datapoint;
  post : string -> Payload -> Z * string
}.

Inductive outcome (A : Type) :=
| Return (a : A)
| Raise (e : exn)
| OutOfFuel.

Arguments Return {A} a.
Arguments Raise {A} e.
Arguments OutOfFuel {A}.

(** A computation reads the environment and extends the log. *)
Definition M (A : Type) : Type := Env -> list Event -> outcome A * list Event.

Definition ret {A} (a : A) : M A := fun _ log => (Return a, log).

Definition bind {A B} (m : M A) (k : A -> M B) : M B :=
  fun env log =>
    match m env log with
    | (Return a, log') => k a env log'
    | (Raise e, log') => (Raise e, log')
    | (OutOfFuel, log') => (OutOfFuel, log')
    end.

Definition raise {A} (e : exn) : M A := fun _ log => (Raise e, log).

Definition emit (ev : Event) : M unit := fun _ log => (Return tt, log ++ [ev]).

Definition ask {A} (f : Env -> A) : M A := fun env log => (Return (f env), log).

Declare Scope monad_scope.
Delimit Scope monad_scope with monad.
Notation "x <- c1 ;; c2" := (bind c1 (fun x => c2))
  (at level 61, c1 at next level, right associativity) : monad_scope.
Notation "c1 ;; c2" := (bind c1 (fun _ => c2))
  (at level 61, right associativity) : monad_scope.
Local Open Scope monad_scope.

(** [if c: body] *)
Definition when (c : bool) (body : M unit) : M unit :=
  if c then body else ret tt.

(** [for x in xs: body(x)] *)
Fixpoint for_each {A} (xs : list A) (body : A -> M unit) : M unit :=
  match xs with
  | [] => ret tt
  | x :: xs' => body x ;; for_each xs' body
  end.

(** [for x in xs: acc = body(acc, x)], for loops that update local variables. *)
Fixpoint for_fold {A S} (xs : list A) (acc : S) (body : S -> A -> M S) : M S :=
  match xs with
  | [] => ret acc
  | x :: xs' => acc' <- body acc x ;; for_fold xs' acc' body
  end.

(** [while not done: ...]: the loop body either finishes the loop with a
    value or asks for another round with a new loop state.  A loop that is
    still running when the fuel is spent has outcome [OutOfFuel]. *)
Fixpoint while_loop {S A} (fuel : nat) (body : S -> M (S + A)) (s : S) : M A :=
  match fuel with
  | O => fun _ log => (OutOfFuel, log)
  | Datatypes.S fuel' =>
      r <- body s ;;
      match r with
      | inl s' => while_loop fuel' body s'
      | inr a => ret a
      end
  end.

(** ** reaper.py *)

Definition SLACK_WEB_HOOK_ENV_VAR : string := "SLACK_WEB_HOOK".
Definition SLACK_CHANNEL_ENV_VAR : string := "SLACK_CHANNEL".

(** Truth value of a [str] or [None]. *)
Definition truthy (x : option string) : bool :=
  match x with
  | Some s => negb (String.eqb s "")
  | None => false
  end.

(** Lines 23-38. *)
Definition slack_send (msg : Text) : M unit :=
  webhook <- ask environ_SLACK_WEB_HOOK ;;
  channel <- ask environ_SLACK_CHANNEL ;;
  match webhook with
  | None =>
      raise (Exception [FStr "Please set environment variable ";
                        FStr SLACK_WEB_HOOK_ENV_VAR])
  | Some webhook =>
      let payload :=
        mkPayload msg "ec2-reaper" ":robot_face:"
                  (if truthy channel then channel else None) in
      emit (requests_post webhook payload) ;;
      req <- ask (fun env => post env webhook payload) ;;
      when (negb (fst req =? 200))
           (emit (print [FStr "Response:"; FStr " "; FInt (fst req) "";
                         FStr " "; FStr (snd req)]))
  end.

(** Lines 48-55: the instance dictionary and the three activity floors. *)
Record Instance := mkInstance {
  instance_dict : InstanceDict;
  _min_cpu : Q;
  _min_disk : Q;
  _min_network : Q
}.

Module Instance.

(** Lines 57-62.  [self['Tags']] raises [KeyError] without the key. *)
Fixpoint first_Name (tags : list Tag) : option string :=
  match tags with
  | [] => None
  | tagdict :: tags' =>
      if String.eqb (Key tagdict) "Name" then Some (Value tagdict)
      else first_Name tags'
  end.

Definition name (self : Instance) : M (option string) :=
  match Tags (instance_dict self) with
  | None => raise (KeyError "Tags")
  | Some tags => ret (first_Name tags)
  end.

(** Lines 64-70. *)
Definition state (self : Instance) : string :=
  State_Name (State (instance_dict self)).

Definition is_running (self : Instance) : bool :=
  State_Code (State (instance_dict self)) =? 16.

(** Lines 123-167: the request, then the idle window of its datapoints. *)
Definition get_idle_period_hours_for_metric
           (self : Instance) (metricname unit : string) (idle_threshold : Q)
  : M Q :=
  emit (cw_get_metric_statistics (InstanceId (instance_dict self))
                                 metricname unit) ;;
  datapoints <- ask (fun env =>
                       get_metric_statistics env
                         (InstanceId (instance_dict self)) metricname unit) ;;
  ret (idle_period_of_datapoints datapoints idle_threshold).

(** Lines 72-74. *)
Definition cpu_idle_period_hours (self : Instance) : M Q :=
  get_idle_period_hours_for_metric self "CPUUtilization" "Percent"
                                   (_min_cpu self).

(** Lines 76-81. *)
Definition network_idle_period_hours (self : Instance) : M Q :=
  packets_in_idle <-
    get_idle_period_hours_for_metric self "NetworkPacketsIn" "Count"
                                     (_min_network self) ;;
  packets_out_idle <-
    get_idle_period_hours_for_metric self "NetworkPacketsOut" "Count"
                                     (_min_network self) ;;
  ret (py_max packets_in_idle packets_out_idle).

(** Lines 83-95. *)
Definition disk_idle_period_hours (self : Instance) : M Q :=
  disk_read_idle <-
    get_idle_period_hours_for_metric self "EBSReadOps" "Count"
                                     (_min_disk self) ;;
  disk_read_idle <-
    (if Qltb disk_read_idle 0
     then get_idle_period_hours_for_metric self "DiskReadOps" "Count"
                                           (_min_disk self)
     else ret disk_read_idle) ;;
  disk_write_idle <-
    get_idle_period_hours_for_metric self "EBSWriteOps" "Count"
                                     (_min_disk self) ;;
  disk_write_idle <-
    (if Qltb disk_write_idle 0
     then get_idle_period_hours_for_metric self "DiskWriteOps" "Count"
                                           (_min_disk self)
     else ret disk_write_idle) ;;
  ret (py_max disk_read_idle disk_write_idle).

(** Lines 97-101. *)
Definition idle_period_hours (self : Instance) : M Q :=
  cpu <- cpu_idle_period_hours self ;;
  disk <- disk_idle_period_hours self ;;
  network <- network_idle_period_hours self ;;
  ret (py_min3 cpu disk network).

(** [f'{x:64s}'] for a value that is a [str] or [None]: [None] does not
    accept a format specification. *)
Definition format_s (width : nat) (x : option string) : M string :=
  match x with
  | Some s => ret (ljust width s)
  | None =>
      raise (TypeError
               "unsupported format string passed to NoneType.__format__")
  end.

(** Lines 169-170. *)
Definition __str__ (self : Instance) : M string :=
  name <- name self ;;
  name64 <- format_s 64 name ;;
  ret (name64 ++ "  " ++ InstanceId (instance_dict self) ++ "  "
       ++ ljust 16 (InstanceType (instance_dict self)) ++ " "
       ++ state self)%string.

End Instance.

(** Lines 40-43.  The second f-string of the source is a statement of its
    own and is not part of [msg]. *)
Definition slack_warn (inst : Instance) : M unit :=
  name <- Instance.name inst ;;
  idle_period_hours <- Instance.idle_period_hours inst ;;
  let msg := [FStr ":warning: Instance "; FStr (str_of_optional name);
              FStr " ("; FStr (InstanceId (instance_dict inst));
              FStr ") has been idle for "; FNum idle_period_hours ".2f";
              FStr " hours "] in
  slack_send msg.

(** Lines 45-46. *)
Definition stop_instance (inst : Instance) : M unit :=
  s <- Instance.__str__ inst ;;
  emit (print [FStr "Stopping instance "; FStr s]).

(** [instances_vec.sort(key=lambda i: i.state)]: a stable ascending sort on
    the state name. *)
Fixpoint insert_by_state (i : Instance) (l : list Instance) : list Instance :=
  match l with
  | [] => [i]
  | j :: l' =>
      if String.leb (Instance.state i) (Instance.state j)
      then i :: l
      else j :: insert_by_state i l'
  end.

Definition sort_by_state (l : list Instance) : list Instance :=
  fold_right insert_by_state [] l.

(** [print(inst)] (line 245): the line is [str(inst)]. *)
Definition print_instance (inst : Instance) : M unit :=
  s <- Instance.__str__ inst ;;
  emit (print [FStr s]).

(** The local counters of [reaper] (lines 252-254). *)
Record Counters := mkCounters { warned : Z; stopped : Z; checked : Z }.

Section Reaper.

Variables (min_cpu_utilisation min_disk_ops min_network_packets : Q).
Variables (stop_instance_idle_timeout_hours warning_idle_timeout_hours : Z).
Variables (verbose include_stopped : bool).
Variables (warning_callback stop_instance_callback : Instance -> M unit).

(** Lines 230-238: one round of the listing loop, on the loop variables
    [instances_vec] and [nexttoken]. *)
Definition describe_instances_round (vars : list Instance * string)
  : M (list Instance * string + list Instance) :=
  let (instances_vec, nexttoken) := vars in
  emit (ec2_describe_instances nexttoken) ;;
  resp <- ask (fun env => describe_instances env nexttoken) ;;
  let instances_vec :=
    fold_left (fun vec reservation =>
                 vec ++ map (fun d => mkInstance d min_cpu_utilisation
                                                 min_disk_ops
                                                 min_network_packets)
                            reservation)
              (Reservations resp) instances_vec in
  match instances_NextToken resp with
  | None => ret (inr instances_vec)
  | Some nexttoken => ret (inl (instances_vec, nexttoken))
  end.

(** Lines 226-238. *)
Definition list_instances (fuel : nat) : M (list Instance) :=
  while_loop fuel describe_instances_round ([], "").

(** Lines 256-269: the body of the loop over [instances_vec]. *)
Definition check_instance (c : Counters) (inst : Instance) : M Counters :=
  if Instance.is_running inst || include_stopped then
    let c := mkCounters (warned c) (stopped c) (checked c + 1) in
    idle <- Instance.idle_period_hours inst ;;
    c <- (if Qltb idle (inject_Z stop_instance_idle_timeout_hours) then
            idle <- Instance.idle_period_hours inst ;;
            if Qle_bool (inject_Z warning_idle_timeout_hours) idle then
              warning_callback inst ;;
              ret (mkCounters (warned c + 1) (stopped c) (checked c))
            else ret c
          else
            stop_instance_callback inst ;;
            ret (mkCounters (warned c) (stopped c + 1) (checked c))) ;;
    (if verbose then
       name <- Instance.name inst ;;
       cpu <- Instance.cpu_idle_period_hours inst ;;
       net <- Instance.network_idle_period_hours inst ;;
       disk <- Instance.disk_idle_period_hours inst ;;
       emit (print [FStr (str_of_optional name); FStr " cpu_idle=";
                    FNum cpu ""; FStr " net_idle="; FNum net "";
                    FStr " "; FStr "disk_idle="; FNum disk ""])
     else ret tt) ;;
    ret c
  else ret c.

(** Lines 207-271. *)
Definition reaper (fuel : nat) : M unit :=
  if REPORTING_LOOKBACK_TIME_HOURS <? stop_instance_idle_timeout_hours then
    raise (Exception [FStr "stop_instance idle timeout (";
                      FInt stop_instance_idle_timeout_hours "";
                      FStr ") cannot be longer than ";
                      FInt REPORTING_LOOKBACK_TIME_HOURS "";
                      FStr " hours."])
  else if REPORTING_LOOKBACK_TIME_HOURS <? warning_idle_timeout_hours then
    raise (Exception [FStr "warning idle timeout (";
                      FInt warning_idle_timeout_hours "";
                      FStr ") cannot be longer than ";
                      FInt REPORTING_LOOKBACK_TIME_HOURS "";
                      FStr " hours."])
  else
    instances_vec <- list_instances fuel ;;
    instances_vec <-
      (if verbose then
         emit (print [FStr "Instances"]) ;;
         emit (print [FStr "========="]) ;;
         let instances_vec := sort_by_state instances_vec in
         for_each instances_vec print_instance ;;
         ret instances_vec
       else ret instances_vec) ;;
    when verbose (emit (print [FStr ""]) ;;
                  emit (print [FStr "Idleness"]) ;;
                  emit (print [FStr "========"])) ;;
    c <- for_fold instances_vec (mkCounters 0 0 0) check_instance ;;
    emit (print [FStr "Checked "; FInt (checked c) "";
                 FStr " instances, issued "; FInt (warned c) "";
                 FStr " warnings and stopped "; FInt (stopped c) "";
                 FStr "."]).

End Reaper.

(** Lines 195-205, with the command-line options as arguments. *)
Definition main (min_cpu_utilisation min_disk_ops min_network_packets : Q)
           (stop_instance_idle_timeout_hours warning_idle_timeout_hours : Z)
           (verbose include_stopped : bool) (test_slack : option string)
           (fuel : nat) : M unit :=
  if truthy test_slack then
    slack_send [FStr (str_of_optional test_slack)]
  else
    reaper min_cpu_utilisation min_disk_ops min_network_packets
           stop_instance_idle_timeout_hours warning_idle_timeout_hours
           verbose include_stopped slack_warn stop_instance fuel.

(** The callbacks of a caller that only records which action was asked for. *)
Definition record_warning (inst : Instance) : M unit :=
  emit (warning_recorded (InstanceId (instance_dict inst))).

Definition record_stop (inst : Instance) : M unit :=
  emit (stop_recorded (InstanceId (instance_dict inst))).

(** ** ebs.py *)

Definition Volume := VolumeDict.

Module Volume.

(** Lines 18-25. *)
Definition name (self : Volume) : string :=
  match volume_Tags self with
  | Some tags =>
      match Instance.first_Name tags with
      | Some value => value
      | None => "<No Name>"
      end
  | None => "<No Name>"
  end.

End Volume.

(** The three warning texts (lines 114, 118-119, 123). *)
Definition msg_available (n_available : Z) : Text :=
  [FStr "⚠️ Number of available volumes ("; FInt n_available "";
   FStr ") exceeds threshold ("; FInt MAX_AVAILABLE ""; FStr ") ⚠️"].

Definition msg_inuse_over_200GB (n_inuse_over_200GB : Z) : Text :=
  [FStr "⚠️ Number of in-use volumes > 200GB ("; FInt n_inuse_over_200GB "";
   FStr ") exceeds "; FStr "threshold ("; FInt MAX_IN_USE_OVER_200GB "";
   FStr ") ⚠️"].

Definition msg_total_size (total_size : Z) : Text :=
  [FStr "⚠️ Total EBS size ("; FInt total_size ""; FStr " GB) exceeds threshold (";
   FInt MAX_EBS_SIZE ""; FStr " GB) ⚠️"].

Fixpoint repeat_string (n : nat) (s : string) : string :=
  match n with
  | O => ""
  | Datatypes.S n' => (s ++ repeat_string n' s)%string
  end.

Section EbsReaper.

Variable slack_send_func : option (Text -> M unit).

(** Lines 85-95: one round of the listing loop, on the loop variables
    [volumes_vec] and [nexttoken].  The request carries the status filter
    and nothing else. *)
Definition describe_volumes_round (vars : list Volume * string)
  : M (list Volume * string + list Volume) :=
  let (volumes_vec, nexttoken) := vars in
  emit (ec2_describe_volumes None) ;;
  resp <- ask (fun env => describe_volumes env None) ;;
  let volumes_vec := volumes_vec ++ Volumes resp in
  match volumes_NextToken resp with
  | None => ret (inr volumes_vec)
  | Some nexttoken => ret (inl (volumes_vec, nexttoken))
  end.

(** Lines 81-95. *)
Definition list_volumes (fuel : nat) : M (list Volume) :=
  while_loop fuel describe_volumes_round ([], "").

(** Lines 107-110. *)
Definition warn (msg : Text) : M unit :=
  match slack_send_func with
  | Some f => f msg
  | None => ret tt
  end ;;
  emit (print msg).

(** Lines 97-123, on the listed volumes. *)
Definition check_volumes (volumes_vec : list Volume) : M unit :=
  let total_size := fold_left Z.add (map Size volumes_vec) 0 in
  let available_volumes :=
    filter (fun v => String.eqb (volume_State v) "available") volumes_vec in
  let inuse_volumes_over_200GB :=
    filter (fun v => String.eqb (volume_State v) "in-use" && (200 <? Size v))
           volumes_vec in
  for_each volumes_vec
           (fun v => emit (print [FStr (ljust 64 (Volume.name v)); FStr "  ";
                                  FStr (ljust 10 (volume_State v)); FStr "  ";
                                  FInt (Size v) "6d"; FStr " GB"])) ;;
  emit (print [FStr (repeat_string 87 "-")]) ;;
  emit (print [FStr (ljust 64 "Total Size"); FStr "  "; FStr (ljust 10 "");
               FStr "  "; FInt total_size "6d"; FStr " GB"]) ;;
  let n_available := Z.of_nat (List.length available_volumes) in
  when (MAX_AVAILABLE <? n_available) (warn (msg_available n_available)) ;;
  let n_inuse_over_200GB := Z.of_nat (List.length inuse_volumes_over_200GB) in
  when (MAX_IN_USE_OVER_200GB <? n_inuse_over_200GB)
       (warn (msg_inuse_over_200GB n_inuse_over_200GB)) ;;
  when (MAX_EBS_SIZE <? total_size) (warn (msg_total_size total_size)).

(** Lines 65-125. *)
Definition ebs_reaper (fuel : nat) : M unit :=
  volumes_vec <- list_volumes fuel ;;
  check_volumes volumes_vec.

End EbsReaper.

(** * Vocabulary of the properties *)

(** ** Idle results *)

(** The value [get_idle_period_hours_for_metric] documents for "no data". *)
Definition Unknown : Q := -1.

(** An idle result, as its consumers read it: [disk_idle_period_hours]
    (lines 88 and 92) takes a value below zero as "no data". *)
Inductive IdleResult :=
| IdleUnknown
| IdleHours (hours : Q).

Definition idle_result (x : Q) : IdleResult :=
  if Qltb x 0 then IdleUnknown else IdleHours x.

(** ** The descending list of idle timestamps *)

Definition descending : list Timestamp -> Prop :=
  StronglySorted (fun newer older => older <= newer).

(** The gap of the pair at position [i] of a list: [(cur, prev)] are the
    elements at [i] and [i + 1]. *)
Definition pair_at (ts : list Timestamp) (i : nat) (cur prev : Timestamp) : Prop :=
  nth_error ts i = Some cur /\ nth_error ts (S i) = Some prev.

(** The start of the idle run as the specification words it: [cur] of the
    first pair whose gap is strictly greater than the sampling period, the
    oldest timestamp when there is no such pair. *)
Definition run_start (ts : list Timestamp) (start : Timestamp) : Prop :=
  (exists i cur prev,
      pair_at ts i cur prev /\
      timedelta_seconds REPORTING_PERIOD_SECS < cur - prev /\
      (forall j c p, (j < i)%nat -> pair_at ts j c p ->
                     c - p <= timedelta_seconds REPORTING_PERIOD_SECS) /\
      start = cur)
  \/
  ((forall j c p, pair_at ts j c p ->
                  c - p <= timedelta_seconds REPORTING_PERIOD_SECS) /\
   exists d, start = last ts d).

(** ** Runs *)

(** [m] returns [v] and appends exactly [evs] to the log, whatever the log. *)
Definition runs {A} (m : M A) (env : Env) (v : A) (evs : list Event) : Prop :=
  forall log, m env log = (Return v, log ++ evs).

(** ** The metric categories of an instance, over a snapshot *)

Definition is_Unknown (x : Q) : bool := Qeq_bool x Unknown.

(** "Attempt the primary metric name; if its result is Unknown, attempt the
    secondary name." *)
Definition or_fallback (primary secondary : Q) : Q :=
  if is_Unknown primary then secondary else primary.

Section Snapshot.

Variables (env : Env) (self : Instance).

Definition fetch (metricname unit : string) : Event :=
  cw_get_metric_statistics (InstanceId (instance_dict self)) metricname unit.

Definition metric_idle (metricname unit : string) (idle_threshold : Q) : Q :=
  idle_period_of_datapoints
    (get_metric_statistics env (InstanceId (instance_dict self))
                           metricname unit)
    idle_threshold.

Definition cpu_idle : Q :=
  metric_idle "CPUUtilization" "Percent" (_min_cpu self).

Definition packets_in_idle : Q :=
  metric_idle "NetworkPacketsIn" "Count" (_min_network self).

Definition packets_out_idle : Q :=
  metric_idle "NetworkPacketsOut" "Count" (_min_network self).

Definition network_idle : Q := py_max packets_in_idle packets_out_idle.

Definition network_fetches : list Event :=
  [fetch "NetworkPacketsIn" "Count"; fetch "NetworkPacketsOut" "Count"].

Definition disk_read_idle : Q :=
  or_fallback (metric_idle "EBSReadOps" "Count" (_min_disk self))
              (metric_idle "DiskReadOps" "Count" (_min_disk self)).

Definition disk_write_idle : Q :=
  or_fallback (metric_idle "EBSWriteOps" "Count" (_min_disk self))
              (metric_idle "DiskWriteOps" "Count" (_min_disk self)).

Definition disk_idle : Q := py_max disk_read_idle disk_write_idle.

(** The primary name is asked first, the secondary one only after an
    Unknown answer. *)
Definition disk_fetches : list Event :=
  fetch "EBSReadOps" "Count"
  :: (if is_Unknown (metric_idle "EBSReadOps" "Count" (_min_disk self))
      then [fetch "DiskReadOps" "Count"] else [])
  ++ fetch "EBSWriteOps" "Count"
  :: (if is_Unknown (metric_idle "EBSWriteOps" "Count" (_min_disk self))
      then [fetch "DiskWriteOps" "Count"] else []).

Definition effective_idle : Q := py_min3 cpu_idle disk_idle network_idle.

Definition idle_fetches : list Event :=
  fetch "CPUUtilization" "Percent" :: disk_fetches ++ network_fetches.

End Snapshot.

(** The minimum over the categories whose value is known, Unknown when none
    is: the combination rule as the specification words it. *)
Definition min_of_known (cpu disk network : Q) : Q :=
  match filter (fun x => negb (is_Unknown x)) [cpu; disk; network] with
  | [] => Unknown
  | x :: xs => fold_left Qmin xs x
  end.

(** ** Actions *)

Definition is_action (ev : Event) : bool :=
  match ev with
  | warning_recorded _ | stop_recorded _ => true
  | _ => false
  end.

(** The actions asked for in a log, in order. *)
Definition actions (evs : list Event) : list Event := filter is_action evs.

(** A computation that asks for no action, whatever its outcome. *)
Definition quiet {A} (m : M A) : Prop :=
  forall env log, exists evs,
    snd (m env log) = log ++ evs /\ actions evs = [].

(** ** Configuration errors *)

(** The exception of [slack_send] (line 28). *)
Definition missing_webhook : exn :=
  Exception [FStr "Please set environment variable ";
             FStr SLACK_WEB_HOOK_ENV_VAR].


(** ** Paginated listings *)

(** The instance endpoint answers the request with token [tok] and the
    requests that follow its continuation tokens with [pages], each page
    given with the token of its request; the last page has no token. *)
Inductive paginates (srv : string -> DescribeInstancesResponse)
  : string -> list (string * list (list InstanceDict)) -> Prop :=
| paginates_last tok :
    instances_NextToken (srv tok) = None ->
    paginates srv tok [(tok, Reservations (srv tok))]
| paginates_more tok next pages :
    instances_NextToken (srv tok) = Some next ->
    paginates srv next pages ->
    paginates srv tok ((tok, Reservations (srv tok)) :: pages).

(** The instances of the pages, in order, each once. *)
Definition instances_of_pages (min_cpu min_disk min_network : Q)
           (pages : list (string * list (list InstanceDict))) : list Instance :=
  map (fun d => mkInstance d min_cpu min_disk min_network)
      (List.concat (List.concat (map snd pages))).

(** ** The volume report *)

Definition n_available (volumes_vec : list Volume) : Z :=
  Z.of_nat (List.length
              (filter (fun v => String.eqb (volume_State v) "available")
                      volumes_vec)).

Definition n_inuse_over_200GB (volumes_vec : list Volume) : Z :=
  Z.of_nat (List.length
              (filter (fun v => String.eqb (volume_State v) "in-use"
                                && (200 <? Size v))
                      volumes_vec)).

Definition total_size (volumes_vec : list Volume) : Z :=
  fold_left Z.add (map Size volumes_vec) 0.

(** The lines printed before the checks: one per volume, a rule, the total. *)
Definition volume_table (volumes_vec : list Volume) : list Event :=
  map (fun v => print [FStr (ljust 64 (Volume.name v)); FStr "  ";
                       FStr (ljust 10 (volume_State v)); FStr "  ";
                       FInt (Size v) "6d"; FStr " GB"])
      volumes_vec
  ++ [print [FStr (repeat_string 87 "-")];
      print [FStr (ljust 64 "Total Size"); FStr "  "; FStr (ljust 10 "");
             FStr "  "; FInt (total_size volumes_vec) "6d"; FStr " GB"]].

(** The sender passed to [ebs_reaper], when there is one, returns and
    appends [sent msg] to the log. *)
Definition sender_appends (slack_send_func : option (Text -> M unit))
           (env : Env) (sent : Text -> list Event) : Prop :=
  match slack_send_func with
  | None => forall msg, sent msg = []
  | Some f => forall msg log, f msg env log = (Return tt, log ++ sent msg)
  end.

(** What one call of [warn] leaves in the log. *)
Definition warned_events (sent : Text -> list Event) (msg : Text) : list Event :=
  sent msg ++ [print msg].

Definition b2n (b : bool) : nat := if b then 1%nat else 0%nat.

(** ** Inputs used in examples *)

Definition minutes (m : Z) : Timestamp := m * 60 * 1000000.

(** [n] samples of the same value, one per sampling period. *)
Definition series (n : nat) (average : Q) : list Datapoint :=
  map (fun i => mkDatapoint (minutes (5 * Z.of_nat i)) average) (seq 0 n).

Definition example_instance_dict : InstanceDict :=
  mkInstanceDict "i-0001" "t3.micro" (mkInstanceState "running" 16)
                 (Some [mkTag "Owner" "ops"; mkTag "Name" "build-box"]).

(** An instance with the default floors of the command line. *)
Definition example_instance : Instance :=
  mkInstance example_instance_dict 3 1 50.

(** One page with one instance, no volume, and the given metrics. *)
Definition example_env (webhook : option string)
           (metrics : string -> string -> string -> list Datapoint) : Env :=
  mkEnv webhook None
        (fun _ => mkDescribeInstancesResponse [[example_instance_dict]] None)
        (fun _ => mkDescribeVolumesResponse [] None)
        metrics
        (fun _ _ => (200, "ok")).

(** Below the floor at minutes 0, 5 and 10, above at minute 15, below again
    at minute 60. *)
Definition gap_scenario : list Datapoint :=
  [mkDatapoint (minutes 0) 1; mkDatapoint (minutes 5) 1;
   mkDatapoint (minutes 10) 1; mkDatapoint (minutes 15) 50;
   mkDatapoint (minutes 60) 1].

Definition gap_env : Env :=
  example_env None
    (fun _ metricname _ =>
       if String.eqb metricname "CPUUtilization" then gap_scenario else []).

(** Below the floor at minutes 0 and 5, above at minute 10, no sample from
    minute 15 to minute 25, below the floor at minutes 30, 35 and 40. *)
Definition broken_run_scenario : list Datapoint :=
  [mkDatapoint (minutes 35) 1; mkDatapoint (minutes 0) 1;
   mkDatapoint (minutes 40) 2; mkDatapoint (minutes 10) 50;
   mkDatapoint (minutes 5) 1; mkDatapoint (minutes 30) 1].

Definition broken_run_env : Env :=
  example_env None
    (fun _ metricname _ =>
       if String.eqb metricname "CPUUtilization" then broken_run_scenario
       else []).

(** No datapoint for any metric. *)
Definition no_data_env : Env := example_env None (fun _ _ _ => []).

(** Every metric idle over the last [n - 1] sampling periods. *)
Definition uniform_env (webhook : option string) (n : nat) : Env :=
  example_env webhook (fun _ _ _ => series n 0).

(** No CPU datapoints, disk idle for 8 hours, network idle for 12 hours. *)
Definition cpu_unknown_env : Env :=
  example_env None
    (fun _ metricname _ =>
       if String.eqb metricname "CPUUtilization" then []
       else if String.eqb metricname "NetworkPacketsIn" then series 145 0
       else if String.eqb metricname "NetworkPacketsOut" then series 145 0
       else series 97 0).

Definition example_volume (id : string) (size : Z) (state : string) : Volume :=
  mkVolumeDict id size state None.

(** A volume listing of two pages: the first answer carries a continuation
    token, the answer to a request with that token does not. *)
Definition two_page_volumes_env : Env :=
  mkEnv None None
        (fun _ => mkDescribeInstancesResponse [] None)
        (fun tok =>
           match tok with
           | None => mkDescribeVolumesResponse
                       [example_volume "vol-1" 8 "in-use"] (Some "page-2")
           | Some _ => mkDescribeVolumesResponse
                         [example_volume "vol-2" 8 "available"] None
           end)
        (fun _ _ _ => [])
        (fun _ _ => (200, "ok")).

(** 25 available volumes of 480 GB: 12,000 GB in all, none in use. *)
Definition scenario_volumes : list Volume :=
  repeat (example_volume "vol-a" 480 "available") 25.

(** An instance with tags, none of which is the name. *)
Definition unnamed_instance : Instance :=
  mkInstance (mkInstanceDict "i-0002" "t3.micro" (mkInstanceState "running" 16)
                             (Some [mkTag "Owner" "ops"]))
             3 1 50.

(** An instance listing of two pages. *)
Definition two_page_instances_env : Env :=
  mkEnv None None
        (fun tok =>
           if String.eqb tok ""
           then mkDescribeInstancesResponse [[example_instance_dict]]
                                            (Some "page-2")
           else mkDescribeInstancesResponse [[instance_dict unnamed_instance]]
                                            None)
        (fun _ => mkDescribeVolumesResponse [] None)
        (fun _ _ _ => [])
        (fun _ _ => (200, "ok")).

Definition not_formattable : exn :=
  TypeError "unsupported format string passed to NoneType.__format__".

(** * Vocabulary of the further properties *)

(** A request to EC2 or to CloudWatch. *)
Definition is_aws_call (ev : Event) : bool :=
  match ev with
  | ec2_describe_instances _ | ec2_describe_volumes _
  | cw_get_metric_statistics _ _ _ => true
  | _ => false
  end.

Definition is_print (ev : Event) : bool :=
  match ev with
  | print _ => true
  | _ => false
  end.

(** The dictionary [slack_send] posts (lines 30-34). *)
Definition slack_payload (env : Env) (msg : Text) : Payload :=
  mkPayload msg "ec2-reaper" ":robot_face:"
            (if truthy (environ_SLACK_CHANNEL env)
             then environ_SLACK_CHANNEL env else None).

(** The text [slack_warn] sends (line 41). *)
Definition warning_text (name : option string) (instance_id : string)
           (idle : Q) : Text :=
  [FStr ":warning: Instance "; FStr (str_of_optional name);
   FStr " ("; FStr instance_id; FStr ") has been idle for ";
   FNum idle ".2f"; FStr " hours "].

(** The last line of a pass (line 271). *)
Definition summary_line (c : Counters) : Text :=
  [FStr "Checked "; FInt (checked c) ""; FStr " instances, issued ";
   FInt (warned c) ""; FStr " warnings and stopped "; FInt (stopped c) "";
   FStr "."].

Section PassVocabulary.

Variables (stop warning : Z) (include_stopped : bool) (env : Env).

Definition in_scope (inst : Instance) : bool :=
  Instance.is_running inst || include_stopped.

(** What the two tests of lines 258 and 259 ask for. *)
Definition decision (inst : Instance) : list Event :=
  if Qltb (effective_idle env inst) (inject_Z stop)
  then if Qle_bool (inject_Z warning) (effective_idle env inst)
       then [warning_recorded (InstanceId (instance_dict inst))]
       else []
  else [stop_recorded (InstanceId (instance_dict inst))].

(** The actions of a pass over [instances_vec]. *)
Definition pass_actions (instances_vec : list Instance) : list Event :=
  flat_map (fun inst => if in_scope inst then decision inst else [])
           instances_vec.

(** The log of the loop body for one instance, with the recording
    callbacks and without [verbose]: nothing for an instance out of scope;
    one round of metric requests before a stop; two rounds otherwise. *)
Definition check_events (inst : Instance) : list Event :=
  if in_scope inst
  then idle_fetches env inst
       ++ (if Qltb (effective_idle env inst) (inject_Z stop)
           then idle_fetches env inst ++ decision inst
           else decision inst)
  else [].

(** The counters after one instance. *)
Definition tally (c : Counters) (inst : Instance) : Counters :=
  if in_scope inst
  then if Qltb (effective_idle env inst) (inject_Z stop)
       then if Qle_bool (inject_Z warning) (effective_idle env inst)
            then mkCounters (warned c + 1) (stopped c) (checked c + 1)
            else mkCounters (warned c) (stopped c) (checked c + 1)
       else mkCounters (warned c) (stopped c + 1) (checked c + 1)
  else c.

End PassVocabulary.

Definition is_warning (ev : Event) : bool :=
  match ev with
  | warning_recorded _ => true
  | _ => false
  end.

Definition is_stop (ev : Event) : bool :=
  match ev with
  | stop_recorded _ => true
  | _ => false
  end.

(** The warnings of the volume pass, in the order of its three checks. *)
Definition exceeded_warnings (volumes_vec : list Volume) : list Text :=
  (if MAX_AVAILABLE <? n_available volumes_vec
   then [msg_available (n_available volumes_vec)] else [])
  ++ (if MAX_IN_USE_OVER_200GB <? n_inuse_over_200GB volumes_vec
      then [msg_inuse_over_200GB (n_inuse_over_200GB volumes_vec)] else [])
  ++ (if MAX_EBS_SIZE <? total_size volumes_vec
      then [msg_total_size (total_size volumes_vec)] else []).

(** An instance that has a name: a ['Tags'] key and a ["Name"] tag. *)
Definition has_name (inst : Instance) : bool :=
  match Tags (instance_dict inst) with
  | Some tags =>
      match Instance.first_Name tags with
      | Some _ => true
      | None => false
      end
  | None => false
  end.

(** The string of an instance that has a name (lines 169-170). *)
Definition instance_string (inst : Instance) : string :=
  (ljust 64 (str_of_optional
               (match Tags (instance_dict inst) with
                | Some tags => Instance.first_Name tags
                | None => None
                end))
   ++ "  " ++ InstanceId (instance_dict inst) ++ "  "
   ++ ljust 16 (InstanceType (instance_dict inst)) ++ " "
   ++ Instance.state inst)%string.

Section CommandLinePass.

Variables (stop warning : Z) (include_stopped : bool) (env : Env).

(** An instance that a pass of the command line gets past without sending
    a warning: out of scope, or below the warning timeout, or to be stopped
    and with a name to print. *)
Definition no_warning_due (inst : Instance) : bool :=
  negb (in_scope include_stopped inst)
  || (if Qltb (effective_idle env inst) (inject_Z stop)
      then negb (Qle_bool (inject_Z warning) (effective_idle env inst))
      else has_name inst).

(** The log of the loop body for such an instance, with the callbacks of
    the command line and without [verbose]. *)
Definition command_line_events (inst : Instance) : list Event :=
  if in_scope include_stopped inst
  then idle_fetches env inst
       ++ (if Qltb (effective_idle env inst) (inject_Z stop)
           then idle_fetches env inst
           else [print [FStr "Stopping instance ";
                        FStr (instance_string inst)]])
  else [].

End CommandLinePass.

(** An instance dictionary without the ['Tags'] key. *)
Definition untagged_instance : Instance :=
  mkInstance (mkInstanceDict "i-0003" "t3.micro" (mkInstanceState "running" 16)
                             None)
             3 1 50.

(** Two pages of instances, every metric idle for 7 hours. *)
Definition two_page_idle_env : Env :=
  mkEnv None None
        (describe_instances two_page_instances_env)
        (fun _ => mkDescribeVolumesResponse [] None)
        (fun _ _ _ => series 85 0)
        (fun _ _ => (200, "ok")).

(** * Properties *)

(** ** Numbers *)

Lemma Qltb_lt (a b : Q) : Qltb a b = true <-> (a < b)%Q.
Proof.
  unfold Qltb. rewrite negb_true_iff. split; intro H.
  - apply Qnot_le_lt. intro Hle. apply Qle_bool_iff in Hle. congruence.
  - destruct (Qle_bool b a) eqn:E; [|reflexivity].
    apply Qle_bool_iff in E. exfalso. exact (Qlt_not_le _ _ H E).
Qed.

Lemma Qltb_ge (a b : Q) : Qltb a b = false <-> (b <= a)%Q.
Proof.
  unfold Qltb. rewrite negb_false_iff. apply Qle_bool_iff.
Qed.

Lemma py_max_Qmax (a b : Q) : (py_max a b == Qmax a b)%Q.
Proof.
  unfold py_max. destruct (Qltb a b) eqn:E.
  - apply Qltb_lt in E. symmetry. apply Q.max_r. apply Qlt_le_weak, E.
  - apply Qltb_ge in E. symmetry. apply Q.max_l, E.
Qed.

Lemma py_min3_Qmin (a b c : Q) : (py_min3 a b c == Qmin (Qmin a b) c)%Q.
Proof.
  unfold py_min3.
  assert (Hm : ((if Qltb b a then b else a) == Qmin a b)%Q).
  { destruct (Qltb b a) eqn:E.
    - apply Qltb_lt in E. symmetry. apply Q.min_r. apply Qlt_le_weak, E.
    - apply Qltb_ge in E. symmetry. apply Q.min_l, E. }
  destruct (Qltb c (if Qltb b a then b else a)) eqn:E.
  - apply Qltb_lt in E. rewrite Hm in E. symmetry.
    apply Q.min_r. apply Qlt_le_weak, E.
  - apply Qltb_ge in E. rewrite Hm in E. rewrite Hm. symmetry.
    apply Q.min_l, E.
Qed.

Lemma hours_of_timedelta_nonneg (us : Z) :
  0 <= us -> (0 <= hours_of_timedelta us)%Q.
Proof.
  intro H. unfold hours_of_timedelta, Qle. simpl. lia.
Qed.

(** ** The descending sort *)

Lemma insert_desc_perm (t : Timestamp) (l : list Timestamp) :
  Permutation (insert_desc t l) (t :: l).
Proof.
  induction l as [|u l IH]; simpl.
  - apply Permutation_refl.
  - destruct (u <=? t).
    + apply Permutation_refl.
    + eapply perm_trans; [apply perm_skip, IH | apply perm_swap].
Qed.

Lemma sort_reverse_perm (l : list Timestamp) :
  Permutation (sort_reverse l) l.
Proof.
  induction l as [|t l IH]; simpl.
  - apply perm_nil.
  - eapply perm_trans; [apply insert_desc_perm | apply perm_skip, IH].
Qed.

Lemma insert_desc_descending (t : Timestamp) (l : list Timestamp) :
  descending l -> descending (insert_desc t l).
Proof.
  unfold descending. induction l as [|u l IH]; simpl; intro Hs.
  - constructor; constructor.
  - inversion Hs as [|? ? Hl Hu]; subst.
    destruct (u <=? t) eqn:E.
    + apply Z.leb_le in E. constructor; [exact Hs|].
      constructor; [exact E|].
      eapply Forall_impl; [|exact Hu]. simpl. intros; lia.
    + apply Z.leb_gt in E. constructor; [apply IH, Hl|].
      eapply Permutation_Forall.
      * apply Permutation_sym, insert_desc_perm.
      * constructor; [lia | exact Hu].
Qed.

Lemma sort_reverse_descending (l : list Timestamp) :
  descending (sort_reverse l).
Proof.
  induction l as [|t l IH]; simpl.
  - constructor.
  - apply insert_desc_descending, IH.
Qed.

Lemma sort_reverse_nonempty (l : list Timestamp) :
  l <> [] -> sort_reverse l <> [].
Proof.
  intros Hl Hs. apply Hl. apply Permutation_nil.
  rewrite <- Hs. apply sort_reverse_perm.
Qed.

(** ** The scan for the start of the idle run *)

Lemma find_idle_start_run_start (ts : list Timestamp) (d : Timestamp) :
  ts <> [] -> run_start ts (find_idle_start ts (last ts d)).
Proof.
  induction ts as [|cur rest IH]; [congruence|]. intros _.
  destruct rest as [|prev rest].
  - right. split.
    + intros j c p [_ H]. destruct j; discriminate.
    + exists d. reflexivity.
  - change (find_idle_start (cur :: prev :: rest) (last (cur :: prev :: rest) d))
      with (if timedelta_seconds REPORTING_PERIOD_SECS <? cur - prev
            then cur
            else find_idle_start (prev :: rest) (last (prev :: rest) d)).
    destruct (timedelta_seconds REPORTING_PERIOD_SECS <? cur - prev) eqn:E.
    + apply Z.ltb_lt in E. left. exists 0%nat, cur, prev.
      repeat split; try assumption. intros j c p Hj. lia.
    + apply Z.ltb_ge in E.
      destruct IH as [(i & c0 & p0 & [Hc Hp] & Hgap & Hbefore & Hs)
                     |[Hall [d' Hs]]]; [congruence| |].
      * left. exists (S i), c0, p0. repeat split; try assumption.
        intros j c p Hj [Hjc Hjp]. destruct j as [|j].
        -- simpl in Hjc, Hjp. inversion Hjc; inversion Hjp; subst. exact E.
        -- apply (Hbefore j c p); [lia | split; assumption].
      * right. split.
        -- intros j c p [Hjc Hjp]. destruct j as [|j].
           ++ simpl in Hjc, Hjp. inversion Hjc; inversion Hjp; subst. exact E.
           ++ apply (Hall j c p). split; assumption.
        -- exists d'. rewrite Hs. reflexivity.
Qed.

Lemma find_idle_start_In (ts : list Timestamp) (d : Timestamp) :
  ts <> [] -> In (find_idle_start ts (last ts d)) ts.
Proof.
  induction ts as [|cur rest IH]; [congruence|]. intros _.
  destruct rest as [|prev rest].
  - left. reflexivity.
  - change (find_idle_start (cur :: prev :: rest) (last (cur :: prev :: rest) d))
      with (if timedelta_seconds REPORTING_PERIOD_SECS <? cur - prev
            then cur
            else find_idle_start (prev :: rest) (last (prev :: rest) d)).
    destruct (timedelta_seconds REPORTING_PERIOD_SECS <? cur - prev).
    + left. reflexivity.
    + right. apply IH. congruence.
Qed.

Lemma descending_hd_max (newest : Timestamp) (ts : list Timestamp) (t : Timestamp) :
  descending (newest :: ts) -> In t (newest :: ts) -> t <= newest.
Proof.
  intros Hs [->|Hin]; [lia|].
  inversion Hs as [|? ? _ Hall]; subst.
  rewrite Forall_forall in Hall. apply Hall, Hin.
Qed.

(** ** The idle window *)

Lemma idle_period_of_datapoints_empty (idle_threshold : Q) :
  idle_period_of_datapoints [] idle_threshold = Unknown.
Proof. reflexivity. Qed.

(** With at least one timestamp below the floor, the result is the distance
    in hours from the head of the descending list back to the scanned start. *)
Lemma idle_period_of_datapoints_idle (datapoints : list Datapoint)
      (idle_threshold : Q) (t0 : Timestamp) :
  idle_timestamps datapoints idle_threshold <> [] ->
  let idle_periods := sort_reverse (idle_timestamps datapoints idle_threshold) in
  idle_period_of_datapoints datapoints idle_threshold =
  hours_of_timedelta
    (hd t0 idle_periods - find_idle_start idle_periods (last idle_periods t0)).
Proof.
  intros Hne idle_periods. unfold idle_period_of_datapoints.
  destruct datapoints as [|dp dps]; [exfalso; apply Hne; reflexivity|].
  destruct (idle_timestamps (dp :: dps) idle_threshold) as [|t1 l] eqn:E;
    [congruence|].
  fold idle_periods.
  assert (Hs : idle_periods <> []).
  { apply sort_reverse_nonempty. congruence. }
  destruct idle_periods as [|newest rest] eqn:Ei; [congruence|].
  simpl hd. f_equal. f_equal. f_equal. clear. revert newest. induction rest as [|r rest IH]; intro n.
  - reflexivity.
  - change (last (n :: r :: rest) t1) with (last (r :: rest) t1).
    change (last (n :: r :: rest) t0) with (last (r :: rest) t0).
    apply IH.
Qed.

Lemma idle_period_of_datapoints_nonneg (datapoints : list Datapoint)
      (idle_threshold : Q) :
  datapoints <> [] ->
  (0 <= idle_period_of_datapoints datapoints idle_threshold)%Q.
Proof.
  intro Hne.
  destruct (idle_timestamps datapoints idle_threshold) as [|t0 l] eqn:E.
  - unfold idle_period_of_datapoints.
    destruct datapoints; [congruence|]. rewrite E. apply Qle_refl.
  - rewrite (idle_period_of_datapoints_idle datapoints idle_threshold t0)
      by congruence.
    rewrite E.
    pose proof (sort_reverse_descending (t0 :: l)) as Hd.
    pose proof (@sort_reverse_nonempty (t0 :: l)) as Hs.
    destruct (sort_reverse (t0 :: l)) as [|newest rest] eqn:Es;
      [exfalso; apply Hs; [discriminate | reflexivity]|].
    apply hours_of_timedelta_nonneg. simpl hd.
    assert (Hin : In (find_idle_start (newest :: rest)
                                      (last (newest :: rest) t0))
                     (newest :: rest))
      by (apply find_idle_start_In; discriminate).
    pose proof (descending_hd_max _ _ _ Hd Hin).
    lia.
Qed.

(** The result is the documented [-1] or a duration that is not negative. *)
Lemma idle_period_of_datapoints_range (datapoints : list Datapoint)
      (idle_threshold : Q) :
  idle_period_of_datapoints datapoints idle_threshold = Unknown \/
  (0 <= idle_period_of_datapoints datapoints idle_threshold)%Q.
Proof.
  destruct datapoints as [|dp dps].
  - left. reflexivity.
  - right. apply idle_period_of_datapoints_nonneg. discriminate.
Qed.

(** ** Runs of the metric properties *)

Lemma runs_ret {A} (a : A) (env : Env) : runs (ret a) env a [].
Proof. intro log. unfold ret. rewrite app_nil_r. reflexivity. Qed.

Lemma runs_bind {A B} {m : M A} {k : A -> M B} {env : Env}
      {a : A} {b : B} {evs1 evs2 : list Event} :
  runs m env a evs1 -> runs (k a) env b evs2 ->
  runs (bind m k) env b (evs1 ++ evs2).
Proof.
  intros Hm Hk log. unfold bind. rewrite Hm, Hk, app_assoc. reflexivity.
Qed.

Lemma bind_runs {A B} {m : M A} (k : A -> M B) {env : Env}
      {a : A} {evs : list Event} (log : list Event) :
  runs m env a evs -> bind m k env log = k a env (log ++ evs).
Proof.
  intro Hm. unfold bind. rewrite Hm. reflexivity.
Qed.

Lemma bind_assoc {A B C} (m : M A) (f : A -> M B) (k : B -> M C)
      (env : Env) (log : list Event) :
  bind (bind m f) k env log = bind m (fun a => bind (f a) k) env log.
Proof.
  unfold bind. destruct (m env log) as [[a|e|] log']; reflexivity.
Qed.

Lemma bind_Return {A B} (m : M A) (k : A -> M B) (env : Env)
      (log log' : list Event) (a : A) :
  m env log = (Return a, log') -> bind m k env log = k a env log'.
Proof.
  intro Hm. unfold bind. rewrite Hm. reflexivity.
Qed.

Lemma bind_Raise {A B} (m : M A) (k : A -> M B) (env : Env)
      (log log' : list Event) (e : exn) :
  m env log = (Raise e, log') -> bind m k env log = (Raise e, log').
Proof.
  intro Hm. unfold bind. rewrite Hm. reflexivity.
Qed.

Lemma runs_get_idle_period_hours_for_metric
      (env : Env) (self : Instance) (metricname unit : string) (idle_threshold : Q) :
  runs (Instance.get_idle_period_hours_for_metric self metricname unit
                                                   idle_threshold)
       env
       (idle_period_of_datapoints
          (get_metric_statistics env (InstanceId (instance_dict self))
                                 metricname unit)
          idle_threshold)
       [cw_get_metric_statistics (InstanceId (instance_dict self))
                                 metricname unit].
Proof. intro log. reflexivity. Qed.

Lemma idle_timestamps_below (datapoints : list Datapoint) (idle_threshold : Q)
      (t : Timestamp) :
  In t (idle_timestamps datapoints idle_threshold) <->
  exists dp, In dp datapoints /\ dp_Timestamp dp = t /\
             (dp_Average dp < idle_threshold)%Q.
Proof.
  unfold idle_timestamps. rewrite in_map_iff. split.
  - intros (dp & Ht & Hin). apply filter_In in Hin. destruct Hin as [Hin Hb].
    apply Qltb_lt in Hb. exists dp. tauto.
  - intros (dp & Hin & Ht & Hb). exists dp. split; [exact Ht|].
    apply filter_In. split; [exact Hin | apply Qltb_lt, Hb].
Qed.

(** Microseconds to seconds, seconds to hours. *)
Lemma hours_of_timedelta_conversion (us : Z) :
  (hours_of_timedelta us == inject_Z us / 1000000 / 3600)%Q.
Proof.
  unfold hours_of_timedelta, Qeq, Qdiv, Qmult, Qinv, inject_Z. simpl. lia.
Qed.

(** C2.  When some sample is strictly below the floor, the timestamps of the
    samples strictly below the floor are taken in descending order; the run
    starts at [cur] of the first pair [(cur, prev)] whose gap is strictly
    greater than the sampling period of 5 minutes (a gap equal to the period
    does not break the run), at the oldest idle timestamp when no pair has
    such a gap; the function returns the distance from the most recent idle
    timestamp back to that start, converted to hours, which is not
    negative. *)
Theorem idle_run_start_scan
        (env : Env) (self : Instance) (metricname unit : string)
        (idle_threshold : Q) :
  let datapoints :=
    get_metric_statistics env (InstanceId (instance_dict self)) metricname unit in
  let idle_periods := sort_reverse (idle_timestamps datapoints idle_threshold) in
  (exists dp, In dp datapoints /\ (dp_Average dp < idle_threshold)%Q) ->
  descending idle_periods /\
  Permutation idle_periods (idle_timestamps datapoints idle_threshold) /\
  (forall t, In t idle_periods <->
             exists dp, In dp datapoints /\ dp_Timestamp dp = t /\
                        (dp_Average dp < idle_threshold)%Q) /\
  timedelta_seconds REPORTING_PERIOD_SECS = 5 * 60 * 1000000 /\
  exists newest idle_start hours,
    hd_error idle_periods = Some newest /\
    (forall t, In t idle_periods -> t <= newest) /\
    In idle_start idle_periods /\
    run_start idle_periods idle_start /\
    runs (Instance.get_idle_period_hours_for_metric self metricname unit
                                                     idle_threshold)
         env hours
         [cw_get_metric_statistics (InstanceId (instance_dict self))
                                   metricname unit] /\
    (hours == inject_Z (newest - idle_start) / 1000000 / 3600)%Q /\
    (0 <= hours)%Q.
Proof.
  intros datapoints idle_periods (dp0 & Hdp0 & Hbelow0).
  assert (Hne : idle_timestamps datapoints idle_threshold <> []).
  { intro Hnil.
    assert (Hin : In (dp_Timestamp dp0)
                     (idle_timestamps datapoints idle_threshold)).
    { apply idle_timestamps_below. exists dp0. tauto. }
    rewrite Hnil in Hin. destruct Hin. }
  pose proof (sort_reverse_perm (idle_timestamps datapoints idle_threshold))
    as Hperm. fold idle_periods in Hperm.
  split; [apply sort_reverse_descending|].
  split; [exact Hperm|].
  split.
  { intro t. rewrite <- idle_timestamps_below. split; intro Hin.
    - apply (Permutation_in _ Hperm), Hin.
    - apply (Permutation_in _ (Permutation_sym Hperm)), Hin. }
  split; [reflexivity|].
  pose proof (sort_reverse_nonempty _ Hne) as Hs. fold idle_periods in Hs.
  pose proof (sort_reverse_descending (idle_timestamps datapoints idle_threshold))
    as Hd. fold idle_periods in Hd.
  destruct idle_periods as [|newest rest] eqn:E; [congruence|].
  assert (Hin : In (find_idle_start (newest :: rest)
                                    (last (newest :: rest) newest))
                   (newest :: rest))
    by (apply find_idle_start_In; discriminate).
  exists newest,
         (find_idle_start (newest :: rest) (last (newest :: rest) newest)),
         (hours_of_timedelta
            (newest - find_idle_start (newest :: rest)
                                      (last (newest :: rest) newest))).
  split; [reflexivity|].
  split; [intros t Ht; apply (descending_hd_max _ _ _ Hd Ht)|].
  split; [exact Hin|].
  split; [apply find_idle_start_run_start; discriminate|].
  split; [|split].
  - pose proof (runs_get_idle_period_hours_for_metric env self metricname unit
                  idle_threshold) as Hr.
    fold datapoints in Hr.
    rewrite (idle_period_of_datapoints_idle datapoints idle_threshold newest Hne)
      in Hr.
    unfold idle_periods in E. rewrite E in Hr. exact Hr.
  - apply hours_of_timedelta_conversion.
  - apply hours_of_timedelta_nonneg.
    pose proof (descending_hd_max _ _ _ Hd Hin). lia.
Qed.

(** C4.  For a metric with zero datapoints the function returns the
    documented sentinel [-1]: a value that is not [0], that its consumers
    read as "no data" and never as a duration, and that no series with a
    datapoint produces. *)
Theorem no_datapoints_is_Unknown
        (env : Env) (self : Instance) (metricname unit : string)
        (idle_threshold : Q) :
  get_metric_statistics env (InstanceId (instance_dict self)) metricname unit
  = [] ->
  runs (Instance.get_idle_period_hours_for_metric self metricname unit
                                                   idle_threshold)
       env Unknown
       [cw_get_metric_statistics (InstanceId (instance_dict self))
                                 metricname unit] /\
  ~ (Unknown == 0)%Q /\
  idle_result Unknown = IdleUnknown /\
  (forall hours, idle_result Unknown <> IdleHours hours) /\
  (forall datapoints threshold,
      datapoints <> [] ->
      (0 <= idle_period_of_datapoints datapoints threshold)%Q /\
      idle_result (idle_period_of_datapoints datapoints threshold)
      = IdleHours (idle_period_of_datapoints datapoints threshold)).
Proof.
  intro Hempty. split; [|split; [|split; [|split]]].
  - pose proof (runs_get_idle_period_hours_for_metric env self metricname unit
                  idle_threshold) as Hr.
    rewrite Hempty in Hr. exact Hr.
  - discriminate.
  - reflexivity.
  - discriminate.
  - intros datapoints threshold Hne.
    pose proof (idle_period_of_datapoints_nonneg _ threshold Hne) as H0.
    split; [exact H0|].
    unfold idle_result. apply Qltb_ge in H0. rewrite H0. reflexivity.
Qed.


Lemma idle_run_start_scan_witness :
  exists newest idle_start hours,
    run_start (sort_reverse (idle_timestamps broken_run_scenario 3))
              idle_start /\
    runs (Instance.get_idle_period_hours_for_metric
            example_instance "CPUUtilization" "Percent" 3)
         broken_run_env hours
         [cw_get_metric_statistics "i-0001" "CPUUtilization" "Percent"] /\
    (hours == inject_Z (newest - idle_start) / 1000000 / 3600)%Q /\
    (hours == 1 # 6)%Q.
Proof.
  destruct (idle_run_start_scan broken_run_env example_instance
                                "CPUUtilization" "Percent" 3)
    as (_ & _ & _ & _ & newest & idle_start & hours
        & _ & _ & _ & Hstart & Hr & Hconv & _).
  - exists (mkDatapoint (minutes 35) 1). split.
    + left. reflexivity.
    + reflexivity.
  - exists newest, idle_start, hours.
    split; [exact Hstart|]. split; [exact Hr|]. split; [exact Hconv|].
    assert (Hc : Instance.get_idle_period_hours_for_metric
                   example_instance "CPUUtilization" "Percent" 3
                   broken_run_env []
                 = (Return (hours_of_timedelta (minutes 40 - minutes 30)),
                    [cw_get_metric_statistics "i-0001" "CPUUtilization"
                                              "Percent"]))
      by (vm_compute; reflexivity).
    rewrite (Hr []) in Hc. injection Hc as Hh. rewrite Hh. reflexivity.
Defined.

Lemma no_datapoints_is_Unknown_witness :
  runs (Instance.get_idle_period_hours_for_metric
          example_instance "EBSReadOps" "Count" 1)
       gap_env Unknown
       [cw_get_metric_statistics "i-0001" "EBSReadOps" "Count"].
Proof.
  apply (no_datapoints_is_Unknown gap_env example_instance "EBSReadOps" "Count" 1).
  reflexivity.
Defined.


(** The boundary of the scan: two idle samples exactly one sampling period
    apart belong to the same run, two samples further apart do not. *)
Example gap_equal_to_period_is_no_break :
  idle_period_of_datapoints
    [mkDatapoint (minutes 0) 0; mkDatapoint (minutes 5) 0] 3
  = hours_of_timedelta (minutes 5).
Proof. reflexivity. Qed.

Example gap_above_period_is_a_break :
  idle_period_of_datapoints
    [mkDatapoint (minutes 0) 0; mkDatapoint (minutes 5 + 1) 0] 3
  = hours_of_timedelta 0.
Proof. reflexivity. Qed.

Example gap_scenario_is_zero :
  (idle_period_of_datapoints gap_scenario 3 == 0)%Q.
Proof. reflexivity. Qed.

(** ** The metric categories *)

Lemma metric_idle_range (env : Env) (self : Instance)
      (metricname unit : string) (idle_threshold : Q) :
  metric_idle env self metricname unit idle_threshold = Unknown \/
  (0 <= metric_idle env self metricname unit idle_threshold)%Q.
Proof. apply idle_period_of_datapoints_range. Qed.

(** The test of lines 88 and 92 singles out the Unknown answer. *)
Lemma Qltb_0_is_Unknown (env : Env) (self : Instance)
      (metricname unit : string) (idle_threshold : Q) :
  Qltb (metric_idle env self metricname unit idle_threshold) 0
  = is_Unknown (metric_idle env self metricname unit idle_threshold).
Proof.
  destruct (metric_idle_range env self metricname unit idle_threshold) as [H|H].
  - rewrite H. reflexivity.
  - transitivity false.
    + apply Qltb_ge, H.
    + symmetry. unfold is_Unknown.
      destruct (Qeq_bool _ Unknown) eqn:E; [|reflexivity].
      apply Qeq_bool_iff in E. rewrite E in H.
      exfalso. unfold Unknown, Qle in H. simpl in H. lia.
Qed.

Lemma runs_metric (env : Env) (self : Instance)
      (metricname unit : string) (idle_threshold : Q) :
  runs (Instance.get_idle_period_hours_for_metric self metricname unit
                                                   idle_threshold)
       env (metric_idle env self metricname unit idle_threshold)
       [fetch self metricname unit].
Proof. apply runs_get_idle_period_hours_for_metric. Qed.

Lemma runs_cpu (env : Env) (self : Instance) :
  runs (Instance.cpu_idle_period_hours self) env (cpu_idle env self)
       [fetch self "CPUUtilization" "Percent"].
Proof. apply runs_metric. Qed.

Lemma runs_network (env : Env) (self : Instance) :
  runs (Instance.network_idle_period_hours self) env (network_idle env self)
       (network_fetches self).
Proof.
  unfold Instance.network_idle_period_hours.
  eapply (runs_bind (evs1 := [_]) (evs2 := [_])); [apply runs_metric|].
  eapply (runs_bind (evs1 := [_]) (evs2 := [])); [apply runs_metric|].
  apply runs_ret.
Qed.

(** One direction of the disk category: the primary name, then the
    secondary one after an Unknown answer. *)
Lemma runs_disk_direction (env : Env) (self : Instance)
      (primary secondary : string) :
  runs (disk_idle_0 <-
          Instance.get_idle_period_hours_for_metric self primary "Count"
                                                    (_min_disk self) ;;
        if Qltb disk_idle_0 0
        then Instance.get_idle_period_hours_for_metric self secondary "Count"
                                                       (_min_disk self)
        else ret disk_idle_0)
       env
       (or_fallback (metric_idle env self primary "Count" (_min_disk self))
                    (metric_idle env self secondary "Count" (_min_disk self)))
       (fetch self primary "Count"
        :: (if is_Unknown (metric_idle env self primary "Count" (_min_disk self))
            then [fetch self secondary "Count"] else [])).
Proof.
  eapply (runs_bind (evs1 := [_])); [apply runs_metric|].
  rewrite Qltb_0_is_Unknown. unfold or_fallback.
  destruct (is_Unknown (metric_idle env self primary "Count" (_min_disk self))).
  - apply runs_metric.
  - apply runs_ret.
Qed.

Lemma runs_disk (env : Env) (self : Instance) :
  runs (Instance.disk_idle_period_hours self) env (disk_idle env self)
       (disk_fetches env self).
Proof.
  intro log. unfold Instance.disk_idle_period_hours.
  rewrite <- bind_assoc.
  rewrite (bind_runs _ log
             (runs_disk_direction env self "EBSReadOps" "DiskReadOps")).
  rewrite <- bind_assoc.
  rewrite (bind_runs _ _
             (runs_disk_direction env self "EBSWriteOps" "DiskWriteOps")).
  unfold ret, disk_idle, disk_read_idle, disk_write_idle, disk_fetches.
  f_equal. rewrite <- app_assoc. reflexivity.
Qed.

Lemma runs_idle_period_hours (env : Env) (self : Instance) :
  runs (Instance.idle_period_hours self) env (effective_idle env self)
       (idle_fetches env self).
Proof.
  unfold Instance.idle_period_hours, idle_fetches.
  eapply (runs_bind (evs1 := [_])); [apply runs_cpu|].
  eapply runs_bind; [apply runs_disk|].
  rewrite <- (app_nil_r (network_fetches self)).
  eapply runs_bind; [apply runs_network|].
  apply runs_ret.
Qed.

(** C6.  The network idle period is the maximum of the packets-in and
    packets-out idle periods.  The disk idle period is the maximum of the
    read and write idle periods, each direction asking for its EBS metric
    first and for its Disk metric when, and only when, the EBS answer is
    Unknown. *)
Theorem network_and_disk_are_maxima (env : Env) (self : Instance) :
  runs (Instance.network_idle_period_hours self) env (network_idle env self)
       [fetch self "NetworkPacketsIn" "Count";
        fetch self "NetworkPacketsOut" "Count"] /\
  (network_idle env self ==
   Qmax (metric_idle env self "NetworkPacketsIn" "Count" (_min_network self))
        (metric_idle env self "NetworkPacketsOut" "Count" (_min_network self)))%Q /\
  runs (Instance.disk_idle_period_hours self) env (disk_idle env self)
       (fetch self "EBSReadOps" "Count"
        :: (if is_Unknown (metric_idle env self "EBSReadOps" "Count"
                                       (_min_disk self))
            then [fetch self "DiskReadOps" "Count"] else [])
        ++ fetch self "EBSWriteOps" "Count"
        :: (if is_Unknown (metric_idle env self "EBSWriteOps" "Count"
                                       (_min_disk self))
            then [fetch self "DiskWriteOps" "Count"] else [])) /\
  (disk_idle env self ==
   Qmax (or_fallback (metric_idle env self "EBSReadOps" "Count" (_min_disk self))
                     (metric_idle env self "DiskReadOps" "Count" (_min_disk self)))
        (or_fallback (metric_idle env self "EBSWriteOps" "Count" (_min_disk self))
                     (metric_idle env self "DiskWriteOps" "Count" (_min_disk self))))%Q.
Proof.
  split; [apply runs_network|].
  split; [apply py_max_Qmax|].
  split; [apply runs_disk|].
  apply py_max_Qmax.
Qed.

(** ** Computations that ask for no action *)

Lemma actions_app (l1 l2 : list Event) :
  actions (l1 ++ l2) = actions l1 ++ actions l2.
Proof. apply filter_app. Qed.

Lemma quiet_ret {A} (a : A) : quiet (ret a).
Proof. intros env log. exists []. rewrite app_nil_r. split; reflexivity. Qed.

Lemma quiet_raise {A} (e : exn) : quiet (@raise A e).
Proof. intros env log. exists []. rewrite app_nil_r. split; reflexivity. Qed.

Lemma quiet_ask {A} (f : Env -> A) : quiet (ask f).
Proof. intros env log. exists []. rewrite app_nil_r. split; reflexivity. Qed.

Lemma quiet_emit (ev : Event) : is_action ev = false -> quiet (emit ev).
Proof.
  intros Hev env log. exists [ev]. split; [reflexivity|].
  unfold actions. simpl. rewrite Hev. reflexivity.
Qed.

Lemma quiet_bind {A B} (m : M A) (k : A -> M B) :
  quiet m -> (forall a, quiet (k a)) -> quiet (bind m k).
Proof.
  intros Hm Hk env log. unfold bind.
  destruct (Hm env log) as (evs1 & H1 & Hq1).
  destruct (m env log) as [[a|e|] log1]; simpl in H1; subst log1.
  - destruct (Hk a env (log ++ evs1)) as (evs2 & H2 & Hq2).
    exists (evs1 ++ evs2). rewrite H2, app_assoc. split; [reflexivity|].
    rewrite actions_app, Hq1, Hq2. reflexivity.
  - exists evs1. split; [reflexivity | exact Hq1].
  - exists evs1. split; [reflexivity | exact Hq1].
Qed.

Ltac quiet_step :=
  first [ apply quiet_ret
        | apply quiet_raise
        | apply quiet_ask
        | apply quiet_emit; reflexivity
        | apply quiet_bind; [|intro]
        | match goal with
          | |- quiet (if ?c then _ else _) => destruct c
          | |- quiet (match ?x with _ => _ end) => destruct x
          end ].

Lemma quiet_metric (self : Instance) (metricname unit : string) (thr : Q) :
  quiet (Instance.get_idle_period_hours_for_metric self metricname unit thr).
Proof.
  unfold Instance.get_idle_period_hours_for_metric. repeat quiet_step.
Qed.

Lemma quiet_cpu (self : Instance) : quiet (Instance.cpu_idle_period_hours self).
Proof. apply quiet_metric. Qed.

Lemma quiet_network (self : Instance) :
  quiet (Instance.network_idle_period_hours self).
Proof.
  unfold Instance.network_idle_period_hours.
  repeat first [apply quiet_metric | quiet_step].
Qed.

Lemma quiet_disk (self : Instance) :
  quiet (Instance.disk_idle_period_hours self).
Proof.
  unfold Instance.disk_idle_period_hours.
  repeat first [apply quiet_metric | quiet_step].
Qed.

Lemma quiet_name (self : Instance) : quiet (Instance.name self).
Proof. unfold Instance.name. repeat quiet_step. Qed.

Lemma actions_idle_fetches (env : Env) (self : Instance) :
  actions (idle_fetches env self) = [].
Proof.
  unfold idle_fetches, disk_fetches, network_fetches.
  destruct (is_Unknown (metric_idle env self "EBSReadOps" "Count" _));
    destruct (is_Unknown (metric_idle env self "EBSWriteOps" "Count" _));
    reflexivity.
Qed.

(** ** One instance of the pass *)

(** What the loop body asks for, by the two tests of lines 258 and 259. *)
Lemma check_instance_actions
      (stop warning : Z) (verbose include_stopped : bool)
      (c : Counters) (self : Instance) (env : Env) (log : list Event) :
  Instance.is_running self || include_stopped = true ->
  actions (snd (check_instance stop warning verbose include_stopped
                               record_warning record_stop c self env log))
  = actions log ++
    (if Qltb (effective_idle env self) (inject_Z stop)
     then if Qle_bool (inject_Z warning) (effective_idle env self)
          then [warning_recorded (InstanceId (instance_dict self))]
          else []
     else [stop_recorded (InstanceId (instance_dict self))]).
Proof.
  intro Hscope. unfold check_instance. rewrite Hscope.
  rewrite (bind_runs _ log (runs_idle_period_hours env self)).
  match goal with
  | |- actions (snd (bind _ ?k _ _)) = _ => set (K := k)
  end.
  assert (HK : forall c', quiet (K c')).
  { intro c'. unfold K.
    repeat first [ apply quiet_name | apply quiet_cpu | apply quiet_network
                 | apply quiet_disk | quiet_step ]. }
  assert (Hdone : forall c' l, actions (snd (K c' env l)) = actions l).
  { intros c' l. destruct (HK c' env l) as (evs & -> & Hq).
    rewrite actions_app, Hq, app_nil_r. reflexivity. }
  destruct (Qltb (effective_idle env self) (inject_Z stop)).
  - rewrite bind_assoc.
    rewrite (bind_runs _ _ (runs_idle_period_hours env self)).
    destruct (Qle_bool (inject_Z warning) (effective_idle env self)).
    + rewrite bind_assoc. unfold record_warning.
      rewrite (bind_Return (emit _) _ env _ _ tt eq_refl).
      rewrite (bind_Return (ret _) _ env _ _ _ eq_refl).
      rewrite Hdone, !actions_app, !actions_idle_fetches, !app_nil_r.
      reflexivity.
    + rewrite (bind_Return (ret _) _ env _ _ _ eq_refl).
      rewrite Hdone, !actions_app, !actions_idle_fetches, !app_nil_r.
      reflexivity.
  - rewrite bind_assoc. unfold record_stop.
    rewrite (bind_Return (emit _) _ env _ _ tt eq_refl).
    rewrite (bind_Return (ret _) _ env _ _ _ eq_refl).
    rewrite Hdone, !actions_app, !actions_idle_fetches, !app_nil_r.
    reflexivity.
Qed.

(** C3, as the code has it.  For an instance in scope, with [idle] its
    effective idle hours: a warning is asked for exactly when
    [warning <= idle < stop], a stop exactly when [stop <= idle], never
    both.  The code puts no bound from below on the two timeouts and does
    not order them: nothing is asked for when [idle < warning] provided that
    [warning <= stop], and nothing is asked for when [idle] is Unknown, which
    is [-1], provided that neither timeout is negative. *)
Theorem threshold_evaluator
        (stop warning : Z) (verbose include_stopped : bool)
        (c : Counters) (self : Instance) (env : Env) :
  let idle := effective_idle env self in
  let asked :=
    actions (snd (check_instance stop warning verbose include_stopped
                                 record_warning record_stop c self env [])) in
  let warn_action := warning_recorded (InstanceId (instance_dict self)) in
  let stop_action := stop_recorded (InstanceId (instance_dict self)) in
  Instance.is_running self || include_stopped = true ->
  (In warn_action asked <->
   (inject_Z warning <= idle)%Q /\ (idle < inject_Z stop)%Q) /\
  (In stop_action asked <-> (inject_Z stop <= idle)%Q) /\
  ~ (In warn_action asked /\ In stop_action asked) /\
  (warning <= stop -> (idle < inject_Z warning)%Q -> asked = []) /\
  (0 <= warning -> 0 <= stop -> (idle == Unknown)%Q -> asked = []).
Proof.
  intros idle asked warn_action stop_action Hscope.
  unfold asked. rewrite check_instance_actions by exact Hscope.
  fold idle. change (actions []) with (@nil Event). rewrite app_nil_l.
  assert (Hmono : warning <= stop -> (inject_Z warning <= inject_Z stop)%Q)
    by (intro H; rewrite <- Zle_Qle; exact H).
  assert (Hw0 : 0 <= warning -> (0 <= inject_Z warning)%Q)
    by (intro H; change 0%Q with (inject_Z 0); rewrite <- Zle_Qle; exact H).
  assert (Hs0 : 0 <= stop -> (0 <= inject_Z stop)%Q)
    by (intro H; change 0%Q with (inject_Z 0); rewrite <- Zle_Qle; exact H).
  unfold Unknown.
  destruct (Qltb idle (inject_Z stop)) eqn:E1;
    [apply Qltb_lt in E1 | apply Qltb_ge in E1].
  - destruct (Qle_bool (inject_Z warning) idle) eqn:E2.
    + apply Qle_bool_iff in E2.
      simpl; intuition (first [reflexivity | discriminate | lra]).
    + assert (E2' : (idle < inject_Z warning)%Q).
      { apply Qnot_le_lt. intro H. apply Qle_bool_iff in H. congruence. }
      simpl; intuition (first [reflexivity | discriminate | lra]).
  - simpl; intuition (first [reflexivity | discriminate | lra]).
Qed.

Lemma threshold_evaluator_witness :
  In (warning_recorded (InstanceId (instance_dict example_instance)))
     (actions (snd (check_instance 6 4 false false record_warning record_stop
                                   (mkCounters 0 0 0) example_instance
                                   (uniform_env None 61) []))) /\
  ~ In (stop_recorded (InstanceId (instance_dict example_instance)))
     (actions (snd (check_instance 6 4 false false record_warning record_stop
                                   (mkCounters 0 0 0) example_instance
                                   (uniform_env None 61) []))).
Proof.
  pose proof (threshold_evaluator 6 4 false false (mkCounters 0 0 0)
                                  example_instance (uniform_env None 61)) as T.
  cbv zeta in T.
  destruct (T eq_refl) as (Hw & Hs & _).
  split.
  - apply (proj2 Hw). split; vm_compute; first [reflexivity | discriminate].
  - intro H. apply (proj1 Hs) in H.
    assert (Hlt : (effective_idle (uniform_env None 61) example_instance
                   < inject_Z 6)%Q) by (vm_compute; reflexivity).
    exact (Qlt_not_le _ _ Hlt H).
Defined.

(** C3, as the claim words it, fails on timeouts the code accepts.  With
    [stop = -1] and [warning = -2] a running instance without any datapoint,
    whose idle hours are Unknown, is stopped.  With [stop = 4] and
    [warning = 6] an instance idle for 5 hours, which is below the warning
    timeout, is stopped. *)
Lemma timeouts_counterexample :
  effective_idle no_data_env example_instance = Unknown /\
  actions (snd (check_instance (-1) (-2) false false
                               record_warning record_stop
                               (mkCounters 0 0 0) example_instance
                               no_data_env []))
  = [stop_recorded "i-0001"] /\
  (effective_idle (uniform_env None 61) example_instance == 5)%Q /\
  (effective_idle (uniform_env None 61) example_instance < inject_Z 6)%Q /\
  actions (snd (check_instance 4 6 false false record_warning record_stop
                               (mkCounters 0 0 0) example_instance
                               (uniform_env None 61) []))
  = [stop_recorded "i-0001"].
Proof.
  split; [vm_compute; reflexivity|].
  split; [vm_compute; reflexivity|].
  split; [vm_compute; reflexivity|].
  split; [vm_compute; reflexivity|].
  vm_compute. reflexivity.
Qed.

(** The same through the command line: with [-s -1 -w -2] the instance
    without datapoints reaches the stop callback. *)
Example negative_timeouts_reach_the_stop_callback :
  snd (main 3 1 50 (-1) (-2) false false None 1 no_data_env [])
  = ec2_describe_instances ""
    :: idle_fetches no_data_env example_instance
    ++ [print [FStr "Stopping instance ";
               FStr (instance_string example_instance)];
        print (summary_line (mkCounters 0 1 1))].
Proof. vm_compute. reflexivity. Qed.

(** The thresholds of the command line's defaults, [stop = 6] and
    [warning = 4]: idle for 5 hours warns only, idle for 7 hours stops only,
    idle for 3 hours does neither. *)
Example idle_5_hours_warns :
  (effective_idle (uniform_env None 61) example_instance == 5)%Q /\
  actions (snd (check_instance 6 4 false false record_warning record_stop
                               (mkCounters 0 0 0) example_instance
                               (uniform_env None 61) []))
  = [warning_recorded "i-0001"].
Proof. split; vm_compute; reflexivity. Qed.

Example idle_7_hours_stops :
  (effective_idle (uniform_env None 85) example_instance == 7)%Q /\
  actions (snd (check_instance 6 4 false false record_warning record_stop
                               (mkCounters 0 0 0) example_instance
                               (uniform_env None 85) []))
  = [stop_recorded "i-0001"].
Proof. split; vm_compute; reflexivity. Qed.

Example idle_3_hours_does_nothing :
  (effective_idle (uniform_env None 37) example_instance == 3)%Q /\
  actions (snd (check_instance 6 4 false false record_warning record_stop
                               (mkCounters 0 0 0) example_instance
                               (uniform_env None 37) []))
  = [].
Proof. split; vm_compute; reflexivity. Qed.

(** ** The effective idle hours *)

Lemma metric_idle_lower_bound (env : Env) (self : Instance)
      (metricname unit : string) (idle_threshold : Q) :
  (Unknown <= metric_idle env self metricname unit idle_threshold)%Q.
Proof.
  destruct (metric_idle_range env self metricname unit idle_threshold) as [H|H].
  - rewrite H. apply Qle_refl.
  - unfold Unknown. lra.
Qed.

Lemma or_fallback_lower_bound (primary secondary : Q) :
  (Unknown <= primary)%Q -> (Unknown <= secondary)%Q ->
  (Unknown <= or_fallback primary secondary)%Q.
Proof.
  intros Hp Hs. unfold or_fallback. destruct (is_Unknown primary); assumption.
Qed.

Lemma py_max_lower_bound (a b : Q) :
  (Unknown <= a)%Q -> (Unknown <= py_max a b)%Q.
Proof.
  intro Ha. rewrite py_max_Qmax.
  eapply Qle_trans; [exact Ha | apply Q.le_max_l].
Qed.

Lemma disk_idle_lower_bound (env : Env) (self : Instance) :
  (Unknown <= disk_idle env self)%Q.
Proof.
  apply py_max_lower_bound, or_fallback_lower_bound;
    apply metric_idle_lower_bound.
Qed.

Lemma network_idle_lower_bound (env : Env) (self : Instance) :
  (Unknown <= network_idle env self)%Q.
Proof. apply py_max_lower_bound, metric_idle_lower_bound. Qed.

(** C1, as the code has it.  The effective idle hours are the minimum of
    the three category values, the Unknown value [-1] taking part in the
    minimum like any other value.  So when every category is known the
    result is the smallest of the three durations, and when any category is
    Unknown the result is Unknown; an instance in scope whose effective idle
    hours are Unknown is neither warned nor stopped when the two timeouts
    are not negative. *)
Theorem effective_idle_is_minimum_with_Unknown
        (env : Env) (self : Instance)
        (stop warning : Z) (verbose include_stopped : bool) (c : Counters) :
  runs (Instance.idle_period_hours self) env (effective_idle env self)
       (idle_fetches env self) /\
  (effective_idle env self ==
   Qmin (Qmin (cpu_idle env self) (disk_idle env self))
        (network_idle env self))%Q /\
  ((cpu_idle env self == Unknown)%Q \/ (disk_idle env self == Unknown)%Q \/
   (network_idle env self == Unknown)%Q ->
   (effective_idle env self == Unknown)%Q) /\
  ((0 <= cpu_idle env self)%Q -> (0 <= disk_idle env self)%Q ->
   (0 <= network_idle env self)%Q ->
   (0 <= effective_idle env self)%Q) /\
  ((effective_idle env self == Unknown)%Q ->
   Instance.is_running self || include_stopped = true ->
   0 <= warning -> 0 <= stop ->
   actions (snd (check_instance stop warning verbose include_stopped
                                record_warning record_stop c self env []))
   = []).
Proof.
  pose proof (metric_idle_lower_bound env self "CPUUtilization" "Percent"
                                      (_min_cpu self)) as Hc.
  fold (cpu_idle env self) in Hc.
  pose proof (disk_idle_lower_bound env self) as Hd.
  pose proof (network_idle_lower_bound env self) as Hn.
  pose proof (py_min3_Qmin (cpu_idle env self) (disk_idle env self)
                           (network_idle env self)) as Hmin.
  fold (effective_idle env self) in Hmin.
  assert (Hcases :
            (effective_idle env self == cpu_idle env self)%Q \/
            (effective_idle env self == disk_idle env self)%Q \/
            (effective_idle env self == network_idle env self)%Q).
  { rewrite Hmin.
    destruct (Q.min_dec (Qmin (cpu_idle env self) (disk_idle env self))
                        (network_idle env self)) as [H|H];
      [|right; right; exact H].
    destruct (Q.min_dec (cpu_idle env self) (disk_idle env self)) as [H'|H'];
      rewrite H, H'; [left | right; left]; reflexivity. }
  assert (Hle : (effective_idle env self <= cpu_idle env self)%Q /\
                (effective_idle env self <= disk_idle env self)%Q /\
                (effective_idle env self <= network_idle env self)%Q).
  { rewrite Hmin. repeat split.
    - eapply Qle_trans; [apply Q.le_min_l | apply Q.le_min_l].
    - eapply Qle_trans; [apply Q.le_min_l | apply Q.le_min_r].
    - apply Q.le_min_r. }
  destruct Hle as (Hle1 & Hle2 & Hle3).
  unfold Unknown in *.
  split; [apply runs_idle_period_hours|].
  split; [exact Hmin|].
  split; [|split].
  - intros [H|[H|H]]; destruct Hcases as [H'|[H'|H']]; lra.
  - intros H1 H2 H3. destruct Hcases as [H'|[H'|H']]; lra.
  - intros Hu Hscope Hw Hs.
    rewrite check_instance_actions by exact Hscope.
    assert (Hs' : (0 <= inject_Z stop)%Q)
      by (change 0%Q with (inject_Z 0); rewrite <- Zle_Qle; exact Hs).
    assert (Hw' : (0 <= inject_Z warning)%Q)
      by (change 0%Q with (inject_Z 0); rewrite <- Zle_Qle; exact Hw).
    destruct (Qltb (effective_idle env self) (inject_Z stop)) eqn:E1.
    + destruct (Qle_bool (inject_Z warning) (effective_idle env self)) eqn:E2;
        [|reflexivity].
      apply Qle_bool_iff in E2. lra.
    + apply Qltb_ge in E1. lra.
Qed.

Lemma effective_idle_is_minimum_with_Unknown_witness :
  (effective_idle cpu_unknown_env example_instance == Unknown)%Q /\
  actions (snd (check_instance 6 4 false false record_warning record_stop
                               (mkCounters 0 0 0) example_instance
                               cpu_unknown_env []))
  = [].
Proof.
  destruct (effective_idle_is_minimum_with_Unknown
              cpu_unknown_env example_instance 6 4 false false
              (mkCounters 0 0 0))
    as (_ & _ & Hany & _ & Hquiet).
  assert (Hu : (effective_idle cpu_unknown_env example_instance == Unknown)%Q).
  { apply Hany. left. vm_compute. reflexivity. }
  split; [exact Hu|].
  apply Hquiet; [exact Hu | reflexivity | discriminate | discriminate].
Defined.

(** C1, as the claim words it, fails: with no CPU datapoints, the disk idle
    for 8 hours and the network idle for 12 hours, the minimum over the known
    categories is 8 hours, and the code returns Unknown. *)
Lemma min_of_known_counterexample :
  cpu_idle cpu_unknown_env example_instance = Unknown /\
  (disk_idle cpu_unknown_env example_instance == 8)%Q /\
  (network_idle cpu_unknown_env example_instance == 12)%Q /\
  (min_of_known (cpu_idle cpu_unknown_env example_instance)
                (disk_idle cpu_unknown_env example_instance)
                (network_idle cpu_unknown_env example_instance) == 8)%Q /\
  fst (Instance.idle_period_hours example_instance cpu_unknown_env [])
  = Return Unknown /\
  ~ (Unknown == 8)%Q.
Proof.
  split; [vm_compute; reflexivity|].
  split; [vm_compute; reflexivity|].
  split; [vm_compute; reflexivity|].
  split; [vm_compute; reflexivity|].
  split; [vm_compute; reflexivity|].
  vm_compute. discriminate.
Qed.

(** ** Loops *)

Lemma bind_ext {A B} (m : M A) (k1 k2 : A -> M B) (env : Env)
      (log : list Event) :
  (forall a log', k1 a env log' = k2 a env log') ->
  bind m k1 env log = bind m k2 env log.
Proof.
  intro H. unfold bind.
  destruct (m env log) as [[a|e|] log']; [apply H | reflexivity | reflexivity].
Qed.

Lemma for_fold_app {A S} (l1 l2 : list A) (acc : S) (body : S -> A -> M S)
      (env : Env) (log : list Event) :
  for_fold (l1 ++ l2) acc body env log
  = bind (for_fold l1 acc body) (fun acc' => for_fold l2 acc' body) env log.
Proof.
  revert acc log. induction l1 as [|x l1 IH]; intros acc log.
  - reflexivity.
  - simpl. rewrite bind_assoc. apply bind_ext. intros acc' log'. apply IH.
Qed.

(** An exception in the body at one element ends the loop there: the
    elements after it leave no trace. *)
Lemma for_fold_Raise {A S} (l1 l2 : list A) (x : A) (acc acc1 : S)
      (body : S -> A -> M S) (env : Env) (log log1 log2 : list Event) (e : exn) :
  for_fold l1 acc body env log = (Return acc1, log1) ->
  body acc1 x env log1 = (Raise e, log2) ->
  for_fold (l1 ++ x :: l2) acc body env log = (Raise e, log2).
Proof.
  intros H1 Hx. rewrite for_fold_app.
  rewrite (bind_Return _ _ _ _ _ _ H1). simpl.
  apply bind_Raise, Hx.
Qed.

(** ** Configuration errors *)

Lemma slack_send_missing_webhook (msg : Text) (env : Env) (log : list Event) :
  environ_SLACK_WEB_HOOK env = None ->
  slack_send msg env log = (Raise missing_webhook, log).
Proof.
  intro H. unfold slack_send, bind, ask. rewrite H. reflexivity.
Qed.








(** ** Listings *)

Lemma fold_left_reservations (min_cpu min_disk min_network : Q)
      (reservations : list (list InstanceDict)) (vec : list Instance) :
  fold_left (fun vec reservation =>
               vec ++ map (fun d => mkInstance d min_cpu min_disk min_network)
                          reservation)
            reservations vec
  = vec ++ map (fun d => mkInstance d min_cpu min_disk min_network)
               (List.concat reservations).
Proof.
  revert vec. induction reservations as [|r rs IH]; intro vec; simpl.
  - rewrite app_nil_r. reflexivity.
  - rewrite IH, map_app, app_assoc. reflexivity.
Qed.

Lemma instances_of_pages_cons (min_cpu min_disk min_network : Q)
      (tok : string) (reservations : list (list InstanceDict))
      (pages : list (string * list (list InstanceDict))) :
  instances_of_pages min_cpu min_disk min_network ((tok, reservations) :: pages)
  = map (fun d => mkInstance d min_cpu min_disk min_network)
        (List.concat reservations)
    ++ instances_of_pages min_cpu min_disk min_network pages.
Proof.
  unfold instances_of_pages. simpl. rewrite concat_app, map_app. reflexivity.
Qed.

(** The instance listing follows the continuation tokens: with one unit of
    fuel per page it returns the instances of all pages, in order and once
    each, after one request per page, each made with the token of the answer
    before it. *)
Lemma instance_listing_drains (min_cpu min_disk min_network : Q) (env : Env)
      (tok : string) (pages : list (string * list (list InstanceDict))) :
  paginates (describe_instances env) tok pages ->
  forall (fuel : nat) (vec : list Instance) (log : list Event),
    (List.length pages <= fuel)%nat ->
    while_loop fuel (describe_instances_round min_cpu min_disk min_network)
               (vec, tok) env log
    = (Return (vec ++ instances_of_pages min_cpu min_disk min_network pages),
       log ++ map (fun p => ec2_describe_instances (fst p)) pages).
Proof.
  induction 1 as [tok Hlast | tok next pages Hnext Hrest IH];
    intros fuel vec log Hfuel;
    (destruct fuel as [|fuel]; [simpl in Hfuel; lia|]);
    simpl while_loop; unfold describe_instances_round;
    unfold bind, emit, ask, ret.
  - rewrite Hlast. rewrite fold_left_reservations.
    rewrite instances_of_pages_cons.
    unfold instances_of_pages. simpl. rewrite app_nil_r. reflexivity.
  - rewrite Hnext. rewrite fold_left_reservations.
    rewrite IH by (simpl in Hfuel; lia).
    rewrite instances_of_pages_cons. simpl.
    rewrite <- !app_assoc. reflexivity.
Qed.

Lemma list_instances_drains (min_cpu min_disk min_network : Q) (env : Env)
      (pages : list (string * list (list InstanceDict)))
      (fuel : nat) (log : list Event) :
  paginates (describe_instances env) "" pages ->
  (List.length pages <= fuel)%nat ->
  list_instances min_cpu min_disk min_network fuel env log
  = (Return (instances_of_pages min_cpu min_disk min_network pages),
     log ++ map (fun p => ec2_describe_instances (fst p)) pages).
Proof.
  intros Hp Hfuel. unfold list_instances.
  apply (instance_listing_drains min_cpu min_disk min_network env "" pages Hp
                                 fuel [] log Hfuel).
Qed.

(** Two pages of instances are both collected, the second one asked for
    with the token of the first answer. *)
Example two_pages_of_instances :
  list_instances 3 1 50 2 two_page_instances_env []
  = (Return [example_instance; unnamed_instance],
     [ec2_describe_instances ""; ec2_describe_instances "page-2"]).
Proof. vm_compute. reflexivity. Qed.

(** The volume listing reads the continuation token and never sends it: the
    request is the same in every round, so a first answer that carries a
    token is asked for again and again, whatever the fuel. *)
Lemma volume_listing_repeats (env : Env) (tok : string) :
  volumes_NextToken (describe_volumes env None) = Some tok ->
  forall (fuel : nat) (vars : list Volume * string) (log : list Event),
    while_loop fuel describe_volumes_round vars env log
    = (OutOfFuel, log ++ repeat (ec2_describe_volumes None) fuel).
Proof.
  intro Htok. induction fuel as [|fuel IH]; intros [volumes_vec nexttoken] log.
  - simpl. rewrite app_nil_r. reflexivity.
  - simpl while_loop. unfold describe_volumes_round, bind, emit, ask, ret.
    rewrite Htok. rewrite IH. simpl. rewrite <- app_assoc. reflexivity.
Qed.

Lemma volume_listing_single_page (env : Env) (fuel : nat) (log : list Event) :
  volumes_NextToken (describe_volumes env None) = None ->
  list_volumes (S fuel) env log
  = (Return (Volumes (describe_volumes env None)),
     log ++ [ec2_describe_volumes None]).
Proof.
  intro Hlast. unfold list_volumes. simpl while_loop.
  unfold describe_volumes_round, bind, emit, ask, ret.
  rewrite Hlast. reflexivity.
Qed.

(** C8, on the volume listing of two pages: whatever the fuel, the pass does
    not return; every request it makes is the first one again, and the
    second page is never asked for. *)
Theorem volume_listing_never_follows_token (fuel : nat) :
  ebs_reaper None fuel two_page_volumes_env []
  = (OutOfFuel, repeat (ec2_describe_volumes None) fuel) /\
  ~ In (ec2_describe_volumes (Some "page-2"))
       (snd (ebs_reaper None fuel two_page_volumes_env [])).
Proof.
  assert (H : ebs_reaper None fuel two_page_volumes_env []
              = (OutOfFuel, repeat (ec2_describe_volumes None) fuel)).
  { unfold ebs_reaper, list_volumes, bind.
    rewrite (volume_listing_repeats two_page_volumes_env "page-2" eq_refl).
    reflexivity. }
  split; [exact H|].
  rewrite H. simpl snd. intro Hin. apply repeat_spec in Hin. discriminate.
Qed.

(** ** The volume report *)

Lemma runs_for_each_emit {A} (xs : list A) (line : A -> Event) (env : Env) :
  runs (for_each xs (fun x => emit (line x))) env tt (map line xs).
Proof.
  induction xs as [|x xs IH]; simpl.
  - apply runs_ret.
  - eapply (runs_bind (evs1 := [line x])); [|exact IH].
    intro log. reflexivity.
Qed.

Lemma runs_emit (ev : Event) (env : Env) : runs (emit ev) env tt [ev].
Proof. intro log. reflexivity. Qed.

Lemma runs_warn (slack_send_func : option (Text -> M unit)) (env : Env)
      (sent : Text -> list Event) (msg : Text) :
  sender_appends slack_send_func env sent ->
  runs (warn slack_send_func msg) env tt (warned_events sent msg).
Proof.
  intro Hsend. unfold warn, warned_events.
  eapply runs_bind; [|apply runs_emit].
  destruct slack_send_func as [f|]; simpl in Hsend.
  - intro log. apply Hsend.
  - rewrite Hsend. apply runs_ret.
Qed.

Lemma runs_when_warn (slack_send_func : option (Text -> M unit)) (env : Env)
      (sent : Text -> list Event) (exceeded : bool) (msg : Text) :
  sender_appends slack_send_func env sent ->
  runs (when exceeded (warn slack_send_func msg)) env tt
       (flat_map (warned_events sent) (if exceeded then [msg] else [])).
Proof.
  intro Hsend. destruct exceeded; simpl.
  - rewrite app_nil_r. apply runs_warn, Hsend.
  - apply runs_ret.
Qed.

(** C9.  After the table, the volume pass makes three checks, each on its
    own: more than 20 available volumes, more than 10 in-use volumes above
    200 GB, a total size above 10,000 GB.  It warns once per check that
    fails, in that order, and about nothing else; with 25 available volumes,
    no in-use volume above 200 GB and a total of 12,000 GB it gives exactly
    the first and the third warning. *)
Theorem volume_checks_are_independent
        (slack_send_func : option (Text -> M unit)) (env : Env)
        (sent : Text -> list Event) (volumes_vec : list Volume) :
  sender_appends slack_send_func env sent ->
  exists warnings : list Text,
    runs (check_volumes slack_send_func volumes_vec) env tt
         (volume_table volumes_vec ++ flat_map (warned_events sent) warnings) /\
    (In (msg_available (n_available volumes_vec)) warnings <->
     MAX_AVAILABLE < n_available volumes_vec) /\
    (In (msg_inuse_over_200GB (n_inuse_over_200GB volumes_vec)) warnings <->
     MAX_IN_USE_OVER_200GB < n_inuse_over_200GB volumes_vec) /\
    (In (msg_total_size (total_size volumes_vec)) warnings <->
     MAX_EBS_SIZE < total_size volumes_vec) /\
    List.length warnings
    = (b2n (MAX_AVAILABLE <? n_available volumes_vec)%Z
       + b2n (MAX_IN_USE_OVER_200GB <? n_inuse_over_200GB volumes_vec)%Z
       + b2n (MAX_EBS_SIZE <? total_size volumes_vec)%Z)%nat /\
    NoDup warnings /\
    (n_available volumes_vec = 25 ->
     n_inuse_over_200GB volumes_vec = 0 ->
     total_size volumes_vec = 12000 ->
     warnings = [msg_available 25; msg_total_size 12000]).
Proof.
  intro Hsend.
  set (na := n_available volumes_vec).
  set (ni := n_inuse_over_200GB volumes_vec).
  set (ts := total_size volumes_vec).
  exists ((if MAX_AVAILABLE <? na then [msg_available na] else [])
          ++ (if MAX_IN_USE_OVER_200GB <? ni then [msg_inuse_over_200GB ni]
              else [])
          ++ (if MAX_EBS_SIZE <? ts then [msg_total_size ts] else [])).
  split.
  - unfold check_volumes, volume_table.
    fold (total_size volumes_vec) (n_available volumes_vec)
         (n_inuse_over_200GB volumes_vec).
    fold na ni ts.
    rewrite !flat_map_app, <- !app_assoc.
    eapply runs_bind; [apply runs_for_each_emit|].
    eapply (runs_bind (evs1 := [_])); [apply runs_emit|].
    eapply (runs_bind (evs1 := [_])); [apply runs_emit|].
    eapply runs_bind; [apply runs_when_warn, Hsend|].
    eapply runs_bind; [apply runs_when_warn, Hsend|].
    apply runs_when_warn, Hsend.
  - unfold MAX_AVAILABLE, MAX_IN_USE_OVER_200GB, MAX_EBS_SIZE.
    destruct (Z.ltb_spec (20) na) as [H1|H1];
      destruct (Z.ltb_spec (10) ni) as [H2|H2];
      destruct (Z.ltb_spec (10 * 1000) ts) as [H3|H3];
      unfold msg_available, msg_inuse_over_200GB, msg_total_size,
             MAX_AVAILABLE, MAX_IN_USE_OVER_200GB, MAX_EBS_SIZE;
      simpl;
      repeat (split;
              [first [ reflexivity
                     | intuition (first [discriminate | lia | reflexivity])
                     | repeat constructor; simpl;
                       intuition (first [discriminate | lia]) ]|]);
      intros E1 E2 E3; first [lia | rewrite ?E1, ?E3; reflexivity].
Qed.

Lemma volume_checks_are_independent_witness :
  exists warnings : list Text,
    runs (check_volumes None scenario_volumes) gap_env tt
         (volume_table scenario_volumes
          ++ flat_map (warned_events (fun _ => [])) warnings) /\
    warnings = [msg_available 25; msg_total_size 12000].
Proof.
  destruct (volume_checks_are_independent None gap_env (fun _ => [])
                                          scenario_volumes)
    as (warnings & Hr & _ & _ & _ & _ & _ & Hscenario).
  - intro msg. reflexivity.
  - exists warnings. split; [exact Hr|].
    apply Hscenario; vm_compute; reflexivity.
Defined.

(** ** Display names *)

Lemma first_Name_absent (tags : list Tag) :
  Forall (fun tag => Key tag <> "Name") tags ->
  Instance.first_Name tags = None.
Proof.
  induction 1 as [|tag tags Hkey _ IH]; simpl.
  - reflexivity.
  - apply String.eqb_neq in Hkey. rewrite Hkey. exact IH.
Qed.

(** C10.  For a tag collection without a ["Name"] key, the name of a volume
    is the text ["<No Name>"] and the name of an instance is [None]; the
    string of such an instance is not defined: [__str__], and with it the
    verbose listing and the stop message, raise [TypeError] at the
    fixed-width format of the name, before anything is printed. *)
Theorem unnamed_resources_disagree
        (tags : list Tag) (instance : Instance) (volume : Volume)
        (env : Env) (log : list Event) :
  Forall (fun tag => Key tag <> "Name") tags ->
  Tags (instance_dict instance) = Some tags ->
  volume_Tags volume = Some tags ->
  Volume.name volume = "<No Name>" /\
  Instance.name instance env log = (Return None, log) /\
  Instance.__str__ instance env log = (Raise not_formattable, log) /\
  print_instance instance env log = (Raise not_formattable, log) /\
  stop_instance instance env log = (Raise not_formattable, log).
Proof.
  intros Hkeys Hi Hv. apply first_Name_absent in Hkeys.
  assert (Hname : Instance.name instance env log = (Return None, log)).
  { unfold Instance.name. rewrite Hi, Hkeys. reflexivity. }
  assert (Hstr : Instance.__str__ instance env log
                 = (Raise not_formattable, log)).
  { unfold Instance.__str__.
    rewrite (bind_Return _ _ _ _ _ _ Hname). reflexivity. }
  split; [unfold Volume.name; rewrite Hv, Hkeys; reflexivity|].
  split; [exact Hname|].
  split; [exact Hstr|].
  split.
  - unfold print_instance. apply bind_Raise, Hstr.
  - unfold stop_instance. apply bind_Raise, Hstr.
Qed.

Lemma unnamed_resources_disagree_witness :
  Volume.name (mkVolumeDict "vol-9" 8 "in-use" (Some [mkTag "Owner" "ops"]))
  = "<No Name>" /\
  Instance.name unnamed_instance gap_env [] = (Return None, []) /\
  Instance.__str__ unnamed_instance gap_env [] = (Raise not_formattable, []) /\
  print_instance unnamed_instance gap_env [] = (Raise not_formattable, []) /\
  stop_instance unnamed_instance gap_env [] = (Raise not_formattable, []).
Proof.
  apply (unnamed_resources_disagree [mkTag "Owner" "ops"]).
  - repeat constructor. discriminate.
  - reflexivity.
  - reflexivity.
Defined.

(** A named instance has a string, of fixed-width columns. *)
Example named_instance_has_a_string :
  fst (Instance.__str__ example_instance gap_env [])
  = Return (ljust 64 "build-box" ++ "  i-0001  " ++ ljust 16 "t3.micro"
            ++ " running")%string.
Proof. reflexivity. Qed.

(** In a pass that has to stop an unnamed instance, the stop callback of the
    command line raises and the pass ends without its summary line. *)
Example stopping_an_unnamed_instance_raises :
  let env :=
    mkEnv None None
          (fun _ => mkDescribeInstancesResponse
                      [[instance_dict unnamed_instance]] None)
          (fun _ => mkDescribeVolumesResponse [] None)
          (fun _ _ _ => series 85 0)
          (fun _ _ => (200, "ok")) in
  fst (main 3 1 50 6 4 false false None 5 env []) = Raise not_formattable.
Proof. vm_compute. reflexivity. Qed.

(** * Further properties of the code *)

(** ** The idle window does not depend on the order of the datapoints *)

Lemma idle_timestamps_perm (dps dps' : list Datapoint) (idle_threshold : Q) :
  Permutation dps dps' ->
  Permutation (idle_timestamps dps idle_threshold)
              (idle_timestamps dps' idle_threshold).
Proof.
  intro Hp. unfold idle_timestamps. apply Permutation_map.
  induction Hp as [|dp l l' _ IH|dp dp' l|l l' l'' _ IH1 _ IH2]; simpl.
  - apply perm_nil.
  - destruct (Qltb (dp_Average dp) idle_threshold);
      [apply perm_skip|]; exact IH.
  - destruct (Qltb (dp_Average dp) idle_threshold);
      destruct (Qltb (dp_Average dp') idle_threshold);
      try apply Permutation_refl.
    apply perm_swap.
  - eapply perm_trans; eassumption.
Qed.

(** Two descending lists with the same elements are the same list. *)
Lemma descending_perm_unique (l1 l2 : list Timestamp) :
  descending l1 -> descending l2 -> Permutation l1 l2 -> l1 = l2.
Proof.
  revert l2. induction l1 as [|a l1 IH]; intros l2 H1 H2 Hp.
  - apply Permutation_nil in Hp. congruence.
  - destruct l2 as [|b l2].
    + apply Permutation_sym, Permutation_nil in Hp. discriminate.
    + assert (Hab : a = b).
      { assert (b <= a).
        { apply (descending_hd_max _ _ _ H1).
          apply (Permutation_in _ (Permutation_sym Hp)). left. reflexivity. }
        assert (a <= b).
        { apply (descending_hd_max _ _ _ H2).
          apply (Permutation_in _ Hp). left. reflexivity. }
        lia. }
      subst b. f_equal. apply IH.
      * inversion H1; assumption.
      * inversion H2; assumption.
      * eapply Permutation_cons_inv, Hp.
Qed.

Lemma sort_reverse_perm_eq (l1 l2 : list Timestamp) :
  Permutation l1 l2 -> sort_reverse l1 = sort_reverse l2.
Proof.
  intro Hp. apply descending_perm_unique; try apply sort_reverse_descending.
  eapply perm_trans; [apply sort_reverse_perm|].
  eapply perm_trans; [exact Hp|]. apply Permutation_sym, sort_reverse_perm.
Qed.

(** X1.  The datapoints of a response come in no particular order; the idle
    period is the same for every order of the same datapoints. *)
Theorem idle_period_order_independent
        (datapoints datapoints' : list Datapoint) (idle_threshold : Q) :
  Permutation datapoints datapoints' ->
  idle_period_of_datapoints datapoints idle_threshold
  = idle_period_of_datapoints datapoints' idle_threshold.
Proof.
  intro Hp.
  pose proof (idle_timestamps_perm _ _ idle_threshold Hp) as Hi.
  pose proof (sort_reverse_perm_eq _ _ Hi) as Hs.
  destruct (idle_timestamps datapoints idle_threshold) as [|t0 l] eqn:E.
  - apply Permutation_nil in Hi.
    unfold idle_period_of_datapoints. rewrite E, Hi.
    destruct datapoints as [|dp dps].
    + apply Permutation_nil in Hp. subst. reflexivity.
    + destruct datapoints' as [|dp' dps']; [|reflexivity].
      apply Permutation_sym, Permutation_nil in Hp. discriminate.
  - rewrite (idle_period_of_datapoints_idle datapoints idle_threshold t0)
      by congruence.
    assert (Hne : idle_timestamps datapoints' idle_threshold <> []).
    { intro H0. rewrite H0 in Hi.
      apply Permutation_sym, Permutation_nil in Hi. discriminate. }
    rewrite (idle_period_of_datapoints_idle datapoints' idle_threshold t0 Hne).
    rewrite E, Hs. reflexivity.
Qed.

Lemma idle_period_order_independent_witness :
  idle_period_of_datapoints
    [mkDatapoint (minutes 5) 0; mkDatapoint (minutes 0) 0;
     mkDatapoint (minutes 10) 0] 3
  = idle_period_of_datapoints
      [mkDatapoint (minutes 0) 0; mkDatapoint (minutes 5) 0;
       mkDatapoint (minutes 10) 0] 3.
Proof.
  apply idle_period_order_independent.
  apply perm_swap.
Defined.

(** ** A metric that never went below its floor *)

Lemma idle_timestamps_all_active (datapoints : list Datapoint) (idle_threshold : Q) :
  Forall (fun dp => (idle_threshold <= dp_Average dp)%Q) datapoints ->
  idle_timestamps datapoints idle_threshold = [].
Proof.
  unfold idle_timestamps. induction 1 as [|dp dps Hdp _ IH]; simpl.
  - reflexivity.
  - apply Qltb_ge in Hdp. rewrite Hdp. exact IH.
Qed.

(** X2.  Datapoints that are all at or above the floor give an idle period
    of exactly zero: a known value, not the Unknown of a metric without
    datapoints. *)
Theorem all_active_is_zero
        (env : Env) (self : Instance) (metricname unit : string)
        (idle_threshold : Q) :
  get_metric_statistics env (InstanceId (instance_dict self)) metricname unit
  <> [] ->
  Forall (fun dp => (idle_threshold <= dp_Average dp)%Q)
         (get_metric_statistics env (InstanceId (instance_dict self))
                                metricname unit) ->
  runs (Instance.get_idle_period_hours_for_metric self metricname unit
                                                   idle_threshold)
       env 0%Q
       [cw_get_metric_statistics (InstanceId (instance_dict self))
                                 metricname unit] /\
  idle_result 0 = IdleHours 0.
Proof.
  intros Hne Hall. split; [|reflexivity].
  pose proof (runs_get_idle_period_hours_for_metric env self metricname unit
                idle_threshold) as Hr.
  unfold idle_period_of_datapoints in Hr.
  rewrite (idle_timestamps_all_active _ _ Hall) in Hr.
  destruct (get_metric_statistics env (InstanceId (instance_dict self))
                                  metricname unit); [congruence|exact Hr].
Qed.

Lemma all_active_is_zero_witness :
  runs (Instance.get_idle_period_hours_for_metric
          example_instance "CPUUtilization" "Percent" 3)
       (example_env None (fun _ _ _ => series 4 7)) 0%Q
       [cw_get_metric_statistics "i-0001" "CPUUtilization" "Percent"] /\
  idle_result 0 = IdleHours 0.
Proof.
  apply (all_active_is_zero (example_env None (fun _ _ _ => series 4 7))
                            example_instance "CPUUtilization" "Percent" 3).
  - discriminate.
  - repeat constructor; discriminate.
Defined.

(** ** The idle period fits in the window of the datapoints *)

Lemma idle_timestamps_In (datapoints : list Datapoint) (idle_threshold : Q)
      (t : Timestamp) :
  In t (idle_timestamps datapoints idle_threshold) ->
  exists dp, In dp datapoints /\ dp_Timestamp dp = t.
Proof.
  unfold idle_timestamps. intro H. apply in_map_iff in H.
  destruct H as (dp & Ht & Hin). apply filter_In in Hin.
  exists dp. tauto.
Qed.

Lemma hours_of_timedelta_le (a b : Z) :
  a <= b -> (hours_of_timedelta a <= hours_of_timedelta b)%Q.
Proof.
  intro H. unfold hours_of_timedelta, Qle. simpl. lia.
Qed.

(** X3.  When every datapoint lies in the window from [lo] to [hi], the idle
    period of the metric is between zero and the length of the window; over
    the lookback window of the requests it is at most 48 hours. *)
Theorem idle_period_within_window
        (datapoints : list Datapoint) (idle_threshold : Q) (lo hi : Timestamp) :
  datapoints <> [] ->
  Forall (fun dp => lo <= dp_Timestamp dp <= hi) datapoints ->
  (0 <= idle_period_of_datapoints datapoints idle_threshold)%Q /\
  (idle_period_of_datapoints datapoints idle_threshold
   <= hours_of_timedelta (hi - lo))%Q /\
  (hi - lo <= timedelta_seconds (REPORTING_LOOKBACK_TIME_HOURS * 3600) ->
   (idle_period_of_datapoints datapoints idle_threshold
    <= inject_Z REPORTING_LOOKBACK_TIME_HOURS)%Q).
Proof.
  intros Hne Hwin.
  assert (Hbound : (idle_period_of_datapoints datapoints idle_threshold
                    <= hours_of_timedelta (hi - lo))%Q).
  { rewrite Forall_forall in Hwin.
    destruct (idle_timestamps datapoints idle_threshold) as [|t0 l] eqn:E.
    - unfold idle_period_of_datapoints. rewrite E.
      destruct datapoints as [|dp dps]; [congruence|].
      apply hours_of_timedelta_nonneg.
      specialize (Hwin dp (or_introl eq_refl)). lia.
    - rewrite (idle_period_of_datapoints_idle datapoints idle_threshold t0)
        by congruence.
      pose proof (sort_reverse_perm (idle_timestamps datapoints idle_threshold))
        as Hp.
      assert (Hin : forall t,
                 In t (sort_reverse (idle_timestamps datapoints idle_threshold))
                 -> lo <= t <= hi).
      { intros t Ht. apply (Permutation_in _ Hp) in Ht.
        apply idle_timestamps_In in Ht. destruct Ht as (dp & Hdp & <-).
        apply Hwin, Hdp. }
      pose proof (sort_reverse_nonempty (idle_timestamps datapoints
                                                         idle_threshold))
        as Hs.
      destruct (sort_reverse (idle_timestamps datapoints idle_threshold))
        as [|newest rest]; [exfalso; apply Hs; congruence|].
      simpl hd. apply hours_of_timedelta_le.
      assert (H1 := Hin newest (or_introl eq_refl)).
      assert (H2 := Hin _ (find_idle_start_In (newest :: rest) t0
                                              ltac:(discriminate))).
      lia. }
  split; [apply idle_period_of_datapoints_nonneg, Hne|].
  split; [exact Hbound|].
  intro Hlook. eapply Qle_trans; [exact Hbound|].
  unfold hours_of_timedelta, Qle. simpl.
  unfold timedelta_seconds, REPORTING_LOOKBACK_TIME_HOURS in Hlook. lia.
Qed.

Lemma idle_period_within_window_witness :
  (0 <= idle_period_of_datapoints gap_scenario 3)%Q /\
  (idle_period_of_datapoints gap_scenario 3
   <= hours_of_timedelta (minutes 60 - minutes 0))%Q /\
  (minutes 60 - minutes 0
   <= timedelta_seconds (REPORTING_LOOKBACK_TIME_HOURS * 3600) ->
   (idle_period_of_datapoints gap_scenario 3
    <= inject_Z REPORTING_LOOKBACK_TIME_HOURS)%Q).
Proof.
  apply idle_period_within_window.
  - discriminate.
  - repeat constructor; discriminate.
Defined.

(** ** The requests of one evaluation *)

Lemma is_Unknown_Qltb_0 (env : Env) (self : Instance)
      (metricname unit : string) (idle_threshold : Q) :
  is_Unknown (metric_idle env self metricname unit idle_threshold) = false <->
  (0 <= metric_idle env self metricname unit idle_threshold)%Q.
Proof.
  rewrite <- Qltb_0_is_Unknown. apply Qltb_ge.
Qed.

(** X4.  One evaluation of [idle_period_hours] makes between five and seven
    requests to CloudWatch, all for the instance at hand, and nothing else;
    it makes exactly five when both EBS metrics have datapoints. *)
Theorem idle_period_hours_requests (env : Env) (self : Instance) :
  exists requests,
    runs (Instance.idle_period_hours self) env (effective_idle env self)
         requests /\
    (5 <= List.length requests <= 7)%nat /\
    Forall (fun ev => exists metricname unit,
                ev = cw_get_metric_statistics (InstanceId (instance_dict self))
                                              metricname unit)
           requests /\
    ((0 <= metric_idle env self "EBSReadOps" "Count" (_min_disk self))%Q ->
     (0 <= metric_idle env self "EBSWriteOps" "Count" (_min_disk self))%Q ->
     requests = [fetch self "CPUUtilization" "Percent";
                 fetch self "EBSReadOps" "Count";
                 fetch self "EBSWriteOps" "Count";
                 fetch self "NetworkPacketsIn" "Count";
                 fetch self "NetworkPacketsOut" "Count"]).
Proof.
  exists (idle_fetches env self).
  split; [apply runs_idle_period_hours|].
  unfold idle_fetches, disk_fetches, network_fetches.
  split; [|split].
  - destruct (is_Unknown (metric_idle env self "EBSReadOps" "Count" _));
      destruct (is_Unknown (metric_idle env self "EBSWriteOps" "Count" _));
      simpl; lia.
  - destruct (is_Unknown (metric_idle env self "EBSReadOps" "Count" _));
      destruct (is_Unknown (metric_idle env self "EBSWriteOps" "Count" _));
      simpl; repeat constructor; unfold fetch; eexists; eexists; reflexivity.
  - intros Hr Hw. apply is_Unknown_Qltb_0 in Hr, Hw. rewrite Hr, Hw.
    reflexivity.
Qed.

Lemma idle_period_hours_requests_witness :
  exists requests,
    runs (Instance.idle_period_hours example_instance) (uniform_env None 61)
         (effective_idle (uniform_env None 61) example_instance) requests /\
    requests = [fetch example_instance "CPUUtilization" "Percent";
                fetch example_instance "EBSReadOps" "Count";
                fetch example_instance "EBSWriteOps" "Count";
                fetch example_instance "NetworkPacketsIn" "Count";
                fetch example_instance "NetworkPacketsOut" "Count"].
Proof.
  destruct (idle_period_hours_requests (uniform_env None 61) example_instance)
    as (requests & Hr & _ & _ & Hfive).
  exists requests. split; [exact Hr|].
  apply Hfive; vm_compute; discriminate.
Defined.

(** ** Sending to Slack *)

(** X5.  With the webhook set, [slack_send] posts once to it, with the user
    name and icon of the tool and with a channel only when the channel
    variable is set and not empty.  It returns whatever the status of the
    answer is: an answer other than 200 is printed, not raised. *)
Theorem slack_send_posts_once
        (msg : Text) (env : Env) (log : list Event) (webhook : string) :
  environ_SLACK_WEB_HOOK env = Some webhook ->
  exists printed,
    slack_send msg env log
    = (Return tt,
       log ++ requests_post webhook (slack_payload env msg) :: printed) /\
    Forall (fun ev => is_print ev = true) printed /\
    (printed = [] <-> fst (post env webhook (slack_payload env msg)) = 200) /\
    (forall channel,
        payload_channel (slack_payload env msg) = Some channel <->
        environ_SLACK_CHANNEL env = Some channel /\ channel <> "").
Proof.
  intro Hhook.
  exists (if fst (post env webhook (slack_payload env msg)) =? 200 then []
          else [print [FStr "Response:"; FStr " ";
                       FInt (fst (post env webhook (slack_payload env msg))) "";
                       FStr " ";
                       FStr (snd (post env webhook (slack_payload env msg)))]]).
  split; [|split; [|split]].
  - unfold slack_send, bind, ask, emit, when. rewrite Hhook.
    fold (slack_payload env msg).
    destruct (fst (post env webhook (slack_payload env msg)) =? 200); simpl.
    + reflexivity.
    + rewrite <- app_assoc. reflexivity.
  - destruct (fst (post env webhook (slack_payload env msg)) =? 200);
      repeat constructor.
  - destruct (Z.eqb_spec (fst (post env webhook (slack_payload env msg))) 200)
      as [E|E]; split; try tauto; try discriminate.
  - intro channel. unfold slack_payload. simpl.
    destruct (environ_SLACK_CHANNEL env) as [c|]; simpl.
    + destruct (String.eqb_spec c ""); simpl.
      * split; [discriminate|]. intros [H1 H2]. congruence.
      * split; [intro H; split; congruence | tauto].
    + split; [discriminate | intros [H _]; discriminate].
Qed.

Lemma slack_send_posts_once_witness :
  exists printed,
    slack_send [FStr "hello"] (uniform_env (Some "https://hook") 1) []
    = (Return tt,
       [] ++ requests_post "https://hook"
               (slack_payload (uniform_env (Some "https://hook") 1)
                              [FStr "hello"])
          :: printed).
Proof.
  destruct (slack_send_posts_once [FStr "hello"]
              (uniform_env (Some "https://hook") 1) [] "https://hook" eq_refl)
    as (printed & H & _).
  exists printed. exact H.
Defined.

Lemma slack_send_with_webhook (msg : Text) (env : Env) (log : list Event)
      (webhook : string) :
  environ_SLACK_WEB_HOOK env = Some webhook ->
  slack_send msg env log
  = (Return tt,
     log ++ requests_post webhook (slack_payload env msg)
         :: (if fst (post env webhook (slack_payload env msg)) =? 200 then []
             else [print [FStr "Response:"; FStr " ";
                          FInt (fst (post env webhook (slack_payload env msg))) "";
                          FStr " ";
                          FStr (snd (post env webhook
                                          (slack_payload env msg)))]])).
Proof.
  intro Hhook. unfold slack_send, bind, ask, emit, when. rewrite Hhook.
  fold (slack_payload env msg).
  destruct (fst (post env webhook (slack_payload env msg)) =? 200); simpl.
  - reflexivity.
  - rewrite <- app_assoc. reflexivity.
Qed.

(** X6.  With a test message that is not empty, [main] only sends it: it
    returns after the one post, without a request to EC2 or CloudWatch and
    without looking at the timeouts, whatever they are.  An empty test
    message counts as none. *)
Theorem test_slack_bypasses_the_pass
        (min_cpu min_disk min_network : Q) (stop warning : Z)
        (verbose include_stopped : bool) (test_message webhook : string)
        (fuel : nat) (env : Env) (log : list Event) :
  test_message <> "" ->
  environ_SLACK_WEB_HOOK env = Some webhook ->
  (exists evs,
      main min_cpu min_disk min_network stop warning verbose include_stopped
           (Some test_message) fuel env log
      = (Return tt,
         log ++ requests_post webhook (slack_payload env [FStr test_message])
             :: evs) /\
      Forall (fun ev => is_print ev = true) evs) /\
  main min_cpu min_disk min_network stop warning verbose include_stopped
       (Some "") fuel env log
  = main min_cpu min_disk min_network stop warning verbose include_stopped
         None fuel env log.
Proof.
  intros Hmsg Hhook. split; [|reflexivity].
  unfold main, truthy.
  apply String.eqb_neq in Hmsg. rewrite Hmsg.
  change (negb false) with true. cbv iota. unfold str_of_optional.
  eexists. split.
  - rewrite (slack_send_with_webhook _ env log webhook Hhook). reflexivity.
  - destruct (fst (post env webhook _) =? 200); repeat constructor.
Qed.

Lemma test_slack_bypasses_the_pass_witness :
  exists evs,
    main 3 1 50 60 70 false false (Some "ping") 0
         (uniform_env (Some "https://hook") 1) []
    = (Return tt,
       [] ++ requests_post "https://hook"
               (slack_payload (uniform_env (Some "https://hook") 1)
                              [FStr "ping"])
          :: evs) /\
    Forall (fun ev => is_print ev = true) evs.
Proof.
  apply (test_slack_bypasses_the_pass 3 1 50 60 70 false false "ping"
                                      "https://hook" 0
                                      (uniform_env (Some "https://hook") 1) []).
  - discriminate.
  - reflexivity.
Defined.

(** ** The stop callback of the command line *)

(** X7.  [stop_instance] never calls EC2: it either fails on the string of
    the instance, leaving the log as it was, or prints one line; the
    instance is not stopped. *)
Theorem stop_instance_only_prints
        (inst : Instance) (env : Env) (log : list Event) :
  (exists e, stop_instance inst env log = (Raise e, log)) \/
  (exists s, stop_instance inst env log
             = (Return tt, log ++ [print [FStr "Stopping instance "; FStr s]])).
Proof.
  unfold stop_instance, Instance.__str__, Instance.name, Instance.format_s.
  destruct (Tags (instance_dict inst)) as [tags|].
  - destruct (Instance.first_Name tags) as [name|].
    + right. eexists. reflexivity.
    + left. eexists. reflexivity.
  - left. eexists. reflexivity.
Qed.

(** ** Display names *)




(** A name with a letter outside ASCII counts by its code points: 4 for
    a name of 5 bytes, so its column of 64 has 60 spaces. *)
Example ljust_counts_code_points :
  len "café" = 4%nat /\
  String.length "café" = 5%nat /\
  ljust 64 "café" = ("café" ++ spaces 60)%string /\
  len (ljust 64 "café") = 64%nat.
Proof. repeat split. Qed.

(** X9.  An instance dictionary without the ['Tags'] key has no name at
    all: [name] raises [KeyError], and so do the string of the instance, the
    verbose listing, the stop callback and the warning, each before it logs
    anything; a volume without the key is named ["<No Name>"]. *)
Theorem missing_Tags_key
        (instance : Instance) (volume : Volume) (env : Env) (log : list Event) :
  Tags (instance_dict instance) = None ->
  volume_Tags volume = None ->
  Volume.name volume = "<No Name>" /\
  Instance.name instance env log = (Raise (KeyError "Tags"), log) /\
  Instance.__str__ instance env log = (Raise (KeyError "Tags"), log) /\
  print_instance instance env log = (Raise (KeyError "Tags"), log) /\
  stop_instance instance env log = (Raise (KeyError "Tags"), log) /\
  slack_warn instance env log = (Raise (KeyError "Tags"), log).
Proof.
  intros Hi Hv.
  assert (Hname : Instance.name instance env log
                  = (Raise (KeyError "Tags"), log)).
  { unfold Instance.name. rewrite Hi. reflexivity. }
  assert (Hstr : Instance.__str__ instance env log
                 = (Raise (KeyError "Tags"), log)).
  { unfold Instance.__str__. apply bind_Raise, Hname. }
  split; [unfold Volume.name; rewrite Hv; reflexivity|].
  split; [exact Hname|].
  split; [exact Hstr|].
  split; [unfold print_instance; apply bind_Raise, Hstr|].
  split; [unfold stop_instance; apply bind_Raise, Hstr|].
  unfold slack_warn. apply bind_Raise, Hname.
Qed.

Lemma missing_Tags_key_witness :
  Volume.name (example_volume "vol-1" 8 "in-use") = "<No Name>" /\
  Instance.name untagged_instance gap_env [] = (Raise (KeyError "Tags"), []) /\
  Instance.__str__ untagged_instance gap_env []
  = (Raise (KeyError "Tags"), []) /\
  print_instance untagged_instance gap_env [] = (Raise (KeyError "Tags"), []) /\
  stop_instance untagged_instance gap_env [] = (Raise (KeyError "Tags"), []) /\
  slack_warn untagged_instance gap_env [] = (Raise (KeyError "Tags"), []).
Proof.
  apply missing_Tags_key; reflexivity.
Defined.

(** ** A whole pass, with callbacks that record *)

Lemma runs_check_instance
      (stop warning : Z) (include_stopped : bool) (env : Env)
      (c : Counters) (inst : Instance) :
  runs (check_instance stop warning false include_stopped
                       record_warning record_stop c inst)
       env (tally stop warning include_stopped env c inst)
       (check_events stop warning include_stopped env inst).
Proof.
  intro log. unfold check_instance, tally, check_events, decision, in_scope.
  destruct (Instance.is_running inst || include_stopped).
  - rewrite (bind_runs _ log (runs_idle_period_hours env inst)).
    destruct (Qltb (effective_idle env inst) (inject_Z stop)).
    + rewrite bind_assoc.
      rewrite (bind_runs _ _ (runs_idle_period_hours env inst)).
      destruct (Qle_bool (inject_Z warning) (effective_idle env inst)).
      * cbv [record_warning bind emit ret].
        rewrite <- !app_assoc. reflexivity.
      * cbv [bind ret]. rewrite app_nil_r, <- !app_assoc.
        reflexivity.
    + cbv [record_stop bind emit ret].
      rewrite <- !app_assoc. reflexivity.
  - unfold ret. rewrite app_nil_r. reflexivity.
Qed.

Lemma runs_for_fold {A S} (xs : list A) (body : S -> A -> M S)
      (f : S -> A -> S) (ev : A -> list Event) (env : Env) :
  (forall acc x, runs (body acc x) env (f acc x) (ev x)) ->
  forall acc, runs (for_fold xs acc body) env (fold_left f xs acc)
                   (flat_map ev xs).
Proof.
  intro Hbody. induction xs as [|x xs IH]; intro acc; simpl.
  - apply runs_ret.
  - eapply runs_bind; [apply Hbody | apply IH].
Qed.

(** The log of a pass: one listing request per page, the loop body for each
    instance in listing order, the summary line. *)
Lemma reaper_run
      (min_cpu min_disk min_network : Q) (stop warning : Z)
      (include_stopped : bool) (fuel : nat) (env : Env)
      (pages : list (string * list (list InstanceDict))) :
  paginates (describe_instances env) "" pages ->
  (List.length pages <= fuel)%nat ->
  stop <= REPORTING_LOOKBACK_TIME_HOURS ->
  warning <= REPORTING_LOOKBACK_TIME_HOURS ->
  runs (reaper min_cpu min_disk min_network stop warning false include_stopped
               record_warning record_stop fuel)
       env tt
       (map (fun p => ec2_describe_instances (fst p)) pages
        ++ flat_map (check_events stop warning include_stopped env)
                    (instances_of_pages min_cpu min_disk min_network pages)
        ++ [print (summary_line
                     (fold_left (tally stop warning include_stopped env)
                                (instances_of_pages min_cpu min_disk
                                                    min_network pages)
                                (mkCounters 0 0 0)))]).
Proof.
  intros Hpages Hfuel Hstop Hwarning log. unfold reaper.
  apply Z.ltb_ge in Hstop, Hwarning. rewrite Hstop, Hwarning.
  rewrite (bind_Return _ _ _ _ _ _
             (list_instances_drains min_cpu min_disk min_network env pages
                                    fuel log Hpages Hfuel)).
  rewrite (bind_Return (ret _) _ env _ _ _ eq_refl).
  rewrite (bind_Return (when false _) _ env _ _ tt eq_refl).
  rewrite (bind_runs _ _
             (runs_for_fold _ _ _ _ env
                            (runs_check_instance stop warning include_stopped
                                                 env)
                            (mkCounters 0 0 0))).
  unfold emit, summary_line. rewrite <- !app_assoc. reflexivity.
Qed.

Lemma actions_decision (stop warning : Z) (env : Env) (inst : Instance) :
  actions (decision stop warning env inst) = decision stop warning env inst.
Proof.
  unfold decision.
  destruct (Qltb _ _); [destruct (Qle_bool _ _)|]; reflexivity.
Qed.

Lemma actions_check_events
      (stop warning : Z) (include_stopped : bool) (env : Env)
      (instances_vec : list Instance) :
  actions (flat_map (check_events stop warning include_stopped env)
                    instances_vec)
  = pass_actions stop warning include_stopped env instances_vec.
Proof.
  unfold pass_actions.
  induction instances_vec as [|inst l IH]; cbn [flat_map]; [reflexivity|].
  rewrite actions_app, IH. f_equal. unfold check_events.
  destruct (in_scope include_stopped inst); [|reflexivity].
  rewrite actions_app, actions_idle_fetches. cbn [app].
  destruct (Qltb _ _).
  - rewrite actions_app, actions_idle_fetches. apply actions_decision.
  - apply actions_decision.
Qed.

Lemma actions_listing (pages : list (string * list (list InstanceDict))) :
  actions (map (fun p => ec2_describe_instances (fst p)) pages) = [].
Proof. induction pages as [|p l IH]; simpl; [reflexivity | exact IH]. Qed.

(** X10.  With timeouts within the lookback window, a listing in pages and
    fuel for its pages, a pass without [verbose] returns.  It asks EC2 for
    each page once, then looks at the instances in listing order, and the
    actions it asks for are those the two timeouts decide for the instances
    in scope; an instance out of scope costs no request and gets no action. *)
Theorem pass_returns_with_decided_actions
        (min_cpu min_disk min_network : Q) (stop warning : Z)
        (include_stopped : bool) (fuel : nat) (env : Env)
        (pages : list (string * list (list InstanceDict))) :
  paginates (describe_instances env) "" pages ->
  (List.length pages <= fuel)%nat ->
  stop <= REPORTING_LOOKBACK_TIME_HOURS ->
  warning <= REPORTING_LOOKBACK_TIME_HOURS ->
  exists evs c,
    runs (reaper min_cpu min_disk min_network stop warning false
                 include_stopped record_warning record_stop fuel)
         env tt
         (map (fun p => ec2_describe_instances (fst p)) pages
          ++ evs ++ [print (summary_line c)]) /\
    evs = flat_map (check_events stop warning include_stopped env)
                   (instances_of_pages min_cpu min_disk min_network pages) /\
    actions evs
    = pass_actions stop warning include_stopped env
                   (instances_of_pages min_cpu min_disk min_network pages) /\
    (forall inst, in_scope include_stopped inst = false ->
                  check_events stop warning include_stopped env inst = []).
Proof.
  intros Hpages Hfuel Hstop Hwarning.
  eexists. eexists. split; [|split; [reflexivity|split]].
  - apply reaper_run; assumption.
  - apply actions_check_events.
  - intros inst Hout. unfold check_events. rewrite Hout. reflexivity.
Qed.

Lemma pass_returns_with_decided_actions_witness :
  exists evs c,
    runs (reaper 3 1 50 6 4 false false record_warning record_stop 1)
         (uniform_env None 61) tt
         (map (fun p => ec2_describe_instances (fst p))
              [("", [[example_instance_dict]])]
          ++ evs ++ [print (summary_line c)]) /\
    actions evs = [warning_recorded "i-0001"].
Proof.
  destruct (pass_returns_with_decided_actions
              3 1 50 6 4 false 1 (uniform_env None 61)
              [("", [[example_instance_dict]])])
    as (evs & c & Hr & _ & Ha & _).
  - apply (paginates_last (describe_instances (uniform_env None 61)) "").
    reflexivity.
  - simpl. lia.
  - discriminate.
  - discriminate.
  - exists evs, c. split; [exact Hr|].
    rewrite Ha. vm_compute. reflexivity.
Defined.

Lemma tally_counts
      (stop warning : Z) (include_stopped : bool) (env : Env)
      (instances_vec : list Instance) (c0 : Counters) :
  let c := fold_left (tally stop warning include_stopped env)
                     instances_vec c0 in
  let asked := pass_actions stop warning include_stopped env instances_vec in
  checked c = checked c0
              + Z.of_nat (List.length (filter (in_scope include_stopped)
                                              instances_vec)) /\
  warned c = warned c0 + Z.of_nat (List.length (filter is_warning asked)) /\
  stopped c = stopped c0 + Z.of_nat (List.length (filter is_stop asked)) /\
  warned c + stopped c - checked c <= warned c0 + stopped c0 - checked c0.
Proof.
  revert c0. induction instances_vec as [|inst l IH]; intro c0.
  - simpl. lia.
  - cbn zeta in *. cbn [fold_left].
    specialize (IH (tally stop warning include_stopped env c0 inst)).
    destruct IH as (Hc & Hw & Hs & Hle).
    unfold pass_actions in *. cbn [flat_map filter].
    rewrite !filter_app, !length_app.
    unfold tally, decision in *.
    destruct (in_scope include_stopped inst);
      [destruct (Qltb (effective_idle env inst) (inject_Z stop));
       [destruct (Qle_bool (inject_Z warning) (effective_idle env inst))|]|];
      cbn [filter is_warning is_stop List.length app warned stopped checked] in *;
      lia.
Qed.

(** X11.  The summary line of such a pass reports the pass: the number of
    instances in scope as checked, the number of warnings asked for as
    warned and the number of stops asked for as stopped; warned and stopped
    together never exceed checked. *)
Theorem summary_line_counts_the_pass
        (min_cpu min_disk min_network : Q) (stop warning : Z)
        (include_stopped : bool) (fuel : nat) (env : Env)
        (pages : list (string * list (list InstanceDict))) :
  paginates (describe_instances env) "" pages ->
  (List.length pages <= fuel)%nat ->
  stop <= REPORTING_LOOKBACK_TIME_HOURS ->
  warning <= REPORTING_LOOKBACK_TIME_HOURS ->
  exists evs c,
    runs (reaper min_cpu min_disk min_network stop warning false
                 include_stopped record_warning record_stop fuel)
         env tt (evs ++ [print (summary_line c)]) /\
    checked c
    = Z.of_nat (List.length
                  (filter (in_scope include_stopped)
                          (instances_of_pages min_cpu min_disk min_network
                                              pages))) /\
    warned c = Z.of_nat (List.length (filter is_warning (actions evs))) /\
    stopped c = Z.of_nat (List.length (filter is_stop (actions evs))) /\
    warned c + stopped c <= checked c.
Proof.
  intros Hpages Hfuel Hstop Hwarning.
  pose proof (reaper_run min_cpu min_disk min_network stop warning
                         include_stopped fuel env pages
                         Hpages Hfuel Hstop Hwarning) as Hr.
  rewrite app_assoc in Hr.
  eexists. eexists. split; [exact Hr|].
  rewrite actions_app, actions_listing, actions_check_events. cbn [app].
  pose proof (tally_counts stop warning include_stopped env
                           (instances_of_pages min_cpu min_disk min_network
                                               pages)
                           (mkCounters 0 0 0)) as H.
  cbn zeta in H. cbn [warned stopped checked] in H.
  destruct H as (Hc & Hw & Hs & Hle).
  repeat split; lia.
Qed.

Lemma summary_line_counts_the_pass_witness :
  exists evs c,
    runs (reaper 3 1 50 6 4 false false record_warning record_stop 1)
         (uniform_env None 61) tt (evs ++ [print (summary_line c)]) /\
    warned c + stopped c <= checked c.
Proof.
  destruct (summary_line_counts_the_pass
              3 1 50 6 4 false 1 (uniform_env None 61)
              [("", [[example_instance_dict]])])
    as (evs & c & Hr & _ & _ & _ & Hle).
  - apply (paginates_last (describe_instances (uniform_env None 61)) "").
    reflexivity.
  - simpl. lia.
  - discriminate.
  - discriminate.
  - exists evs, c. split; assumption.
Defined.

(** The pass over one instance idle for 5 hours, in full. *)
Example pass_over_one_idle_instance :
  snd (reaper 3 1 50 6 4 false false record_warning record_stop 1
              (uniform_env None 61) [])
  = ec2_describe_instances ""
    :: idle_fetches (uniform_env None 61) example_instance
    ++ idle_fetches (uniform_env None 61) example_instance
    ++ [warning_recorded "i-0001";
        print (summary_line (mkCounters 1 0 1))].
Proof. vm_compute. reflexivity. Qed.

(** ** The volume pass and its sender *)

Lemma runs_volume_table (slack_send_func : option (Text -> M unit))
      (volumes_vec : list Volume) (env : Env) (log : list Event) :
  check_volumes slack_send_func volumes_vec env log
  = (when (MAX_AVAILABLE <? n_available volumes_vec)
          (warn slack_send_func (msg_available (n_available volumes_vec))) ;;
     when (MAX_IN_USE_OVER_200GB <? n_inuse_over_200GB volumes_vec)
          (warn slack_send_func
                (msg_inuse_over_200GB (n_inuse_over_200GB volumes_vec))) ;;
     when (MAX_EBS_SIZE <? total_size volumes_vec)
          (warn slack_send_func (msg_total_size (total_size volumes_vec))))
      env (log ++ volume_table volumes_vec).
Proof.
  unfold check_volumes, volume_table.
  fold (total_size volumes_vec) (n_available volumes_vec)
       (n_inuse_over_200GB volumes_vec).
  rewrite (bind_runs _ log (runs_for_each_emit volumes_vec _ env)).
  rewrite (bind_runs _ _ (runs_emit _ env)).
  rewrite (bind_runs _ _ (runs_emit _ env)).
  rewrite <- !app_assoc. reflexivity.
Qed.

Lemma warn_missing_webhook (msg : Text) (env : Env) (log : list Event) :
  environ_SLACK_WEB_HOOK env = None ->
  warn (Some slack_send) msg env log = (Raise missing_webhook, log).
Proof.
  intro Hhook. unfold warn. apply bind_Raise.
  apply slack_send_missing_webhook, Hhook.
Qed.

(** X12.  [warn] sends before it prints.  So with [slack_send] as the
    sender and no webhook set, the volume pass prints its table and then, if
    any of the three thresholds is exceeded, ends with the exception of the
    missing webhook without having printed a warning; if none is exceeded it
    returns and the webhook is not missed. *)
Theorem volume_warnings_need_the_webhook
        (volumes_vec : list Volume) (env : Env) (log : list Event) :
  environ_SLACK_WEB_HOOK env = None ->
  check_volumes (Some slack_send) volumes_vec env log
  = (match exceeded_warnings volumes_vec with
     | [] => Return tt
     | _ :: _ => Raise missing_webhook
     end,
     log ++ volume_table volumes_vec).
Proof.
  intro Hhook. rewrite runs_volume_table. unfold exceeded_warnings.
  set (log1 := log ++ volume_table volumes_vec).
  destruct (MAX_AVAILABLE <? n_available volumes_vec).
  - apply bind_Raise. apply warn_missing_webhook, Hhook.
  - rewrite (bind_Return (when false _) _ env log1 log1 tt eq_refl).
    destruct (MAX_IN_USE_OVER_200GB <? n_inuse_over_200GB volumes_vec).
    + apply bind_Raise. apply warn_missing_webhook, Hhook.
    + rewrite (bind_Return (when false _) _ env log1 log1 tt eq_refl).
      destruct (MAX_EBS_SIZE <? total_size volumes_vec).
      * apply warn_missing_webhook, Hhook.
      * reflexivity.
Qed.

Lemma volume_warnings_need_the_webhook_witness :
  check_volumes (Some slack_send) scenario_volumes gap_env []
  = (Raise missing_webhook, [] ++ volume_table scenario_volumes).
Proof.
  apply (volume_warnings_need_the_webhook scenario_volumes gap_env []).
  reflexivity.
Defined.

Lemma runs_check_volumes (slack_send_func : option (Text -> M unit))
      (env : Env) (sent : Text -> list Event) (volumes_vec : list Volume) :
  sender_appends slack_send_func env sent ->
  runs (check_volumes slack_send_func volumes_vec) env tt
       (volume_table volumes_vec
        ++ flat_map (warned_events sent) (exceeded_warnings volumes_vec)).
Proof.
  intros Hsend log. rewrite runs_volume_table. unfold exceeded_warnings.
  rewrite !flat_map_app.
  rewrite (bind_runs _ _ (runs_when_warn _ env sent _ _ Hsend)).
  rewrite (bind_runs _ _ (runs_when_warn _ env sent _ _ Hsend)).
  rewrite (runs_when_warn _ env sent _ _ Hsend).
  rewrite <- !app_assoc. reflexivity.
Qed.

(** X13.  On a listing that fits in one answer, the volume pass without a
    sender returns after a single request to EC2: it prints one line per
    volume, the rule and the total, then at most three warnings, and none
    when no volume is listed. *)
Theorem volume_pass_on_one_page (env : Env) (fuel : nat) :
  volumes_NextToken (describe_volumes env None) = None ->
  let volumes_vec := Volumes (describe_volumes env None) in
  exists warnings,
    runs (ebs_reaper None (S fuel)) env tt
         (ec2_describe_volumes None
          :: volume_table volumes_vec ++ map print warnings) /\
    List.length (volume_table volumes_vec)
    = (List.length volumes_vec + 2)%nat /\
    (List.length warnings <= 3)%nat /\
    (volumes_vec = [] -> warnings = []).
Proof.
  intros Hlast volumes_vec. exists (exceeded_warnings volumes_vec).
  split; [|split; [|split]].
  - intro log. unfold ebs_reaper.
    rewrite (bind_Return _ _ _ _ _ _
               (volume_listing_single_page env fuel log Hlast)).
    fold volumes_vec.
    rewrite (runs_check_volumes None env (fun _ => []) volumes_vec
                                (fun _ => eq_refl)).
    rewrite <- app_assoc. cbn [app].
    assert (Hprints : flat_map (warned_events (fun _ : Text => []))
                               (exceeded_warnings volumes_vec)
                      = map print (exceeded_warnings volumes_vec)).
    { induction (exceeded_warnings volumes_vec) as [|w ws IH];
        [reflexivity | simpl; rewrite IH; reflexivity]. }
    rewrite Hprints. reflexivity.
  - unfold volume_table. rewrite length_app, length_map. reflexivity.
  - unfold exceeded_warnings.
    destruct (MAX_AVAILABLE <? _); destruct (MAX_IN_USE_OVER_200GB <? _);
      destruct (MAX_EBS_SIZE <? _); simpl; lia.
  - intro Hnil. rewrite Hnil. reflexivity.
Qed.

Lemma volume_pass_on_one_page_witness :
  exists warnings,
    runs (ebs_reaper None 1) gap_env tt
         (ec2_describe_volumes None
          :: volume_table (Volumes (describe_volumes gap_env None))
          ++ map print warnings) /\
    warnings = [].
Proof.
  destruct (volume_pass_on_one_page gap_env 0 eq_refl)
    as (warnings & Hr & _ & _ & Hnone).
  exists warnings. split; [exact Hr | apply Hnone; reflexivity].
Defined.

(** ** The verbose listing *)

Lemma insert_by_state_perm (i : Instance) (l : list Instance) :
  Permutation (insert_by_state i l) (i :: l).
Proof.
  induction l as [|j l IH]; simpl.
  - apply Permutation_refl.
  - destruct (String.leb (Instance.state i) (Instance.state j)).
    + apply Permutation_refl.
    + eapply perm_trans; [apply perm_skip, IH | apply perm_swap].
Qed.

Lemma sort_by_state_perm (l : list Instance) :
  Permutation (sort_by_state l) l.
Proof.
  unfold sort_by_state. induction l as [|i l IH]; simpl.
  - apply perm_nil.
  - eapply perm_trans; [apply insert_by_state_perm | apply perm_skip, IH].
Qed.





Lemma print_instance_named (inst : Instance) (env : Env) (log : list Event) :
  has_name inst = true ->
  exists s, print_instance inst env log = (Return tt, log ++ [print [FStr s]]).
Proof.
  unfold has_name, print_instance, Instance.__str__, Instance.name,
    Instance.format_s.
  destruct (Tags (instance_dict inst)) as [tags|]; [|discriminate].
  destruct (Instance.first_Name tags) as [name|]; [|discriminate].
  intros _. eexists. reflexivity.
Qed.

Lemma print_instance_unnamed (inst : Instance) (env : Env) (log : list Event) :
  has_name inst = false ->
  exists e, print_instance inst env log = (Raise e, log) /\
            (e = not_formattable \/ e = KeyError "Tags").
Proof.
  unfold has_name, print_instance, Instance.__str__, Instance.name,
    Instance.format_s.
  destruct (Tags (instance_dict inst)) as [tags|].
  - destruct (Instance.first_Name tags) as [name|]; [discriminate|].
    intros _. eexists. split; [reflexivity | left; reflexivity].
  - intros _. eexists. split; [reflexivity | right; reflexivity].
Qed.

Lemma for_each_print_instance_raises (l : list Instance) (env : Env) :
  (exists inst, In inst l /\ has_name inst = false) ->
  forall log, exists e evs,
    for_each l print_instance env log = (Raise e, log ++ evs) /\
    Forall (fun ev => is_print ev = true) evs /\
    (e = not_formattable \/ e = KeyError "Tags").
Proof.
  induction l as [|i l IH]; intros (inst & Hin & Hno) log.
  - destruct Hin.
  - cbn [for_each]. destruct (has_name i) eqn:Hi.
    + destruct (print_instance_named i env log Hi) as (s & Hs).
      rewrite (bind_Return _ _ _ _ _ _ Hs).
      assert (Htail : exists inst, In inst l /\ has_name inst = false).
      { destruct Hin as [->|Hin]; [congruence|]. exists inst. tauto. }
      destruct (IH Htail (log ++ [print [FStr s]])) as (e & evs & Hr & Hp & He).
      exists e, (print [FStr s] :: evs). rewrite Hr, <- app_assoc.
      split; [reflexivity|]. split; [constructor; [reflexivity | exact Hp]|].
      exact He.
    + destruct (print_instance_unnamed i env log Hi) as (e & Hr & He).
      exists e, []. rewrite app_nil_r. split; [apply bind_Raise, Hr|].
      split; [constructor | exact He].
Qed.

(** X15.  A verbose pass needs every listed instance to have a name: when
    one has none, the pass ends in the listing, with [TypeError] or
    [KeyError], after printing at most the headings and some instances; no
    metric is requested and no callback is called, whatever the callbacks. *)
Theorem verbose_pass_needs_names
        (min_cpu min_disk min_network : Q) (stop warning : Z)
        (include_stopped : bool)
        (warning_callback stop_instance_callback : Instance -> M unit)
        (fuel : nat) (env : Env) (log log0 : list Event)
        (instances_vec : list Instance) (inst : Instance) :
  stop <= REPORTING_LOOKBACK_TIME_HOURS ->
  warning <= REPORTING_LOOKBACK_TIME_HOURS ->
  list_instances min_cpu min_disk min_network fuel env log
  = (Return instances_vec, log0) ->
  In inst instances_vec ->
  has_name inst = false ->
  exists e evs,
    reaper min_cpu min_disk min_network stop warning true include_stopped
           warning_callback stop_instance_callback fuel env log
    = (Raise e, log0 ++ evs) /\
    Forall (fun ev => is_print ev = true) evs /\
    (e = not_formattable \/ e = KeyError "Tags").
Proof.
  intros Hstop Hwarning Hlist Hin Hno. unfold reaper.
  apply Z.ltb_ge in Hstop, Hwarning. rewrite Hstop, Hwarning.
  rewrite (bind_Return _ _ _ _ _ _ Hlist).
  assert (Hsorted : exists i, In i (sort_by_state instances_vec) /\
                              has_name i = false).
  { exists inst. split; [|exact Hno].
    apply (Permutation_in _ (Permutation_sym (sort_by_state_perm _))), Hin. }
  destruct (for_each_print_instance_raises _ env Hsorted
              ((log0 ++ [print [FStr "Instances"]])
                 ++ [print [FStr "========="]]))
    as (e & evs & Hr & Hp & He).
  exists e, (print [FStr "Instances"] :: print [FStr "========="] :: evs).
  split; [|split; [repeat constructor; exact Hp | exact He]].
  apply bind_Raise.
  rewrite (bind_Return (emit _) _ env _ _ tt eq_refl).
  rewrite (bind_Return (emit _) _ env _ _ tt eq_refl).
  apply bind_Raise. rewrite Hr, <- !app_assoc. reflexivity.
Qed.

Lemma verbose_pass_needs_names_witness :
  exists e evs,
    reaper 3 1 50 6 4 true false slack_warn stop_instance 2
           two_page_instances_env []
    = (Raise e, [ec2_describe_instances ""; ec2_describe_instances "page-2"]
                  ++ evs) /\
    Forall (fun ev => is_print ev = true) evs.
Proof.
  destruct (verbose_pass_needs_names
              3 1 50 6 4 false slack_warn stop_instance 2
              two_page_instances_env []
              [ec2_describe_instances ""; ec2_describe_instances "page-2"]
              [example_instance; unnamed_instance] unnamed_instance)
    as (e & evs & Hr & Hp & _).
  - discriminate.
  - discriminate.
  - vm_compute. reflexivity.
  - right. left. reflexivity.
  - reflexivity.
  - exists e, evs. split; assumption.
Defined.

(** ** Unknown under the maximum, and what a stop requires *)







(** ** The warning of the command line *)

(** X17.  With the webhook set, [slack_warn] on an instance with tags asks
    CloudWatch once more for the idle hours, then posts one message with the
    name, the identifier and those hours; an instance without a ["Name"] tag
    is announced under the name ["None"]. *)
Theorem slack_warn_posts_the_idle_hours
        (inst : Instance) (tags : list Tag) (webhook : string)
        (env : Env) (log : list Event) :
  Tags (instance_dict inst) = Some tags ->
  environ_SLACK_WEB_HOOK env = Some webhook ->
  exists printed,
    slack_warn inst env log
    = (Return tt,
       log ++ idle_fetches env inst
           ++ requests_post webhook
                (slack_payload env
                   (warning_text (Instance.first_Name tags)
                                 (InstanceId (instance_dict inst))
                                 (effective_idle env inst)))
              :: printed) /\
    Forall (fun ev => is_print ev = true) printed /\
    (Instance.first_Name tags = None ->
     nth_error (warning_text (Instance.first_Name tags)
                             (InstanceId (instance_dict inst))
                             (effective_idle env inst)) 1
     = Some (FStr "None")).
Proof.
  intros Htags Hhook. eexists. split; [|split].
  - unfold slack_warn, Instance.name. rewrite Htags.
    rewrite (bind_Return (ret _) _ env log log _ eq_refl).
    rewrite (bind_runs _ _ (runs_idle_period_hours env inst)).
    rewrite (slack_send_with_webhook _ env _ webhook Hhook).
    fold (warning_text (Instance.first_Name tags)
                       (InstanceId (instance_dict inst))
                       (effective_idle env inst)).
    rewrite <- app_assoc. reflexivity.
  - destruct (fst (post env webhook _) =? 200); repeat constructor.
  - intro Hnone. rewrite Hnone. reflexivity.
Qed.

Lemma slack_warn_posts_the_idle_hours_witness :
  exists printed,
    slack_warn unnamed_instance (uniform_env (Some "https://hook") 61) []
    = (Return tt,
       [] ++ idle_fetches (uniform_env (Some "https://hook") 61)
                          unnamed_instance
          ++ requests_post "https://hook"
               (slack_payload (uniform_env (Some "https://hook") 61)
                  (warning_text (Instance.first_Name [mkTag "Owner" "ops"])
                                (InstanceId (instance_dict unnamed_instance))
                                (effective_idle
                                   (uniform_env (Some "https://hook") 61)
                                   unnamed_instance)))
             :: printed).
Proof.
  destruct (slack_warn_posts_the_idle_hours
              unnamed_instance [mkTag "Owner" "ops"] "https://hook"
              (uniform_env (Some "https://hook") 61) [] eq_refl eq_refl)
    as (printed & H & _).
  exists printed. exact H.
Defined.

(** ** Listings, in general *)

Lemma instance_listing_out_of_fuel (min_cpu min_disk min_network : Q)
      (env : Env) (tok : string)
      (pages : list (string * list (list InstanceDict))) :
  paginates (describe_instances env) tok pages ->
  forall (fuel : nat) (vec : list Instance) (log : list Event),
    (fuel < List.length pages)%nat ->
    fst (while_loop fuel (describe_instances_round min_cpu min_disk min_network)
                    (vec, tok) env log)
    = OutOfFuel.
Proof.
  induction 1 as [tok Hlast | tok next pages Hnext Hrest IH];
    intros fuel vec log Hfuel.
  - simpl in Hfuel. assert (fuel = 0%nat) by lia. subst. reflexivity.
  - destruct fuel as [|fuel]; [reflexivity|].
    simpl while_loop. unfold describe_instances_round, bind, emit, ask, ret.
    rewrite Hnext. apply IH. simpl in Hfuel. lia.
Qed.

(** X18.  The instance listing asks for one page per round, each request
    with the token of the answer before it.  It returns the instances of
    all pages, in order and once each, exactly when it is given a round per
    page; with fewer rounds it has not finished. *)
Theorem instance_listing_follows_tokens
        (min_cpu min_disk min_network : Q) (env : Env)
        (pages : list (string * list (list InstanceDict)))
        (fuel : nat) (log : list Event) :
  paginates (describe_instances env) "" pages ->
  ((List.length pages <= fuel)%nat ->
   list_instances min_cpu min_disk min_network fuel env log
   = (Return (instances_of_pages min_cpu min_disk min_network pages),
      log ++ map (fun p => ec2_describe_instances (fst p)) pages)) /\
  ((fuel < List.length pages)%nat ->
   fst (list_instances min_cpu min_disk min_network fuel env log)
   = OutOfFuel).
Proof.
  intro Hpages. split; intro Hfuel.
  - apply list_instances_drains; assumption.
  - unfold list_instances.
    apply (instance_listing_out_of_fuel min_cpu min_disk min_network env ""
                                        pages Hpages fuel [] log Hfuel).
Qed.

Lemma instance_listing_follows_tokens_witness :
  list_instances 3 1 50 2 two_page_instances_env []
  = (Return (instances_of_pages 3 1 50
               [("", [[example_instance_dict]]);
                ("page-2", [[instance_dict unnamed_instance]])]),
     [] ++ map (fun p => ec2_describe_instances (fst p))
               [("", [[example_instance_dict]]);
                ("page-2", [[instance_dict unnamed_instance]])]) /\
  fst (list_instances 3 1 50 1 two_page_instances_env []) = OutOfFuel.
Proof.
  assert (Hp : paginates (describe_instances two_page_instances_env) ""
                         [("", [[example_instance_dict]]);
                          ("page-2", [[instance_dict unnamed_instance]])]).
  { apply (paginates_more (describe_instances two_page_instances_env)
                          "" "page-2"); [reflexivity|].
    apply (paginates_last (describe_instances two_page_instances_env)
                          "page-2").
    reflexivity. }
  split.
  - apply (proj1 (instance_listing_follows_tokens
                    3 1 50 two_page_instances_env _ 2 [] Hp)).
    simpl. lia.
  - apply (proj2 (instance_listing_follows_tokens
                    3 1 50 two_page_instances_env _ 1 [] Hp)).
    simpl. lia.
Defined.

(** X19.  Whenever the first answer of the volume listing carries a
    continuation token, the volume pass does not return, whatever the fuel
    and the sender: it repeats the request without a token and prints
    nothing. *)
Theorem volume_pass_repeats_first_request
        (slack_send_func : option (Text -> M unit)) (env : Env) (tok : string)
        (fuel : nat) (log : list Event) :
  volumes_NextToken (describe_volumes env None) = Some tok ->
  ebs_reaper slack_send_func fuel env log
  = (OutOfFuel, log ++ repeat (ec2_describe_volumes None) fuel).
Proof.
  intro Htok. unfold ebs_reaper, list_volumes, bind.
  rewrite (volume_listing_repeats env tok Htok). reflexivity.
Qed.

Lemma volume_pass_repeats_first_request_witness :
  ebs_reaper (Some slack_send) 3 two_page_volumes_env []
  = (OutOfFuel, [] ++ repeat (ec2_describe_volumes None) 3).
Proof.
  apply (volume_pass_repeats_first_request
           (Some slack_send) two_page_volumes_env "page-2" 3 []).
  reflexivity.
Defined.

(** ** A pass of the command line that has no warning to send *)

Lemma runs_stop_instance_named (inst : Instance) (env : Env) :
  has_name inst = true ->
  runs (stop_instance inst) env tt
       [print [FStr "Stopping instance "; FStr (instance_string inst)]].
Proof.
  intros Hname log.
  unfold has_name in Hname.
  unfold stop_instance, Instance.__str__, Instance.name, Instance.format_s,
    instance_string.
  destruct (Tags (instance_dict inst)) as [tags|]; [|discriminate].
  destruct (Instance.first_Name tags) as [name|]; [|discriminate].
  reflexivity.
Qed.

Lemma runs_check_instance_command_line
      (stop warning : Z) (include_stopped : bool) (env : Env)
      (c : Counters) (inst : Instance) :
  no_warning_due stop warning include_stopped env inst = true ->
  runs (check_instance stop warning false include_stopped
                       slack_warn stop_instance c inst)
       env (tally stop warning include_stopped env c inst)
       (command_line_events stop include_stopped env inst).
Proof.
  intros Hdue log.
  unfold no_warning_due in Hdue.
  unfold check_instance, tally, command_line_events, in_scope in *.
  destruct (Instance.is_running inst || include_stopped).
  - simpl in Hdue.
    rewrite (bind_runs _ log (runs_idle_period_hours env inst)).
    destruct (Qltb (effective_idle env inst) (inject_Z stop)).
    + rewrite bind_assoc.
      rewrite (bind_runs _ _ (runs_idle_period_hours env inst)).
      apply negb_true_iff in Hdue. rewrite Hdue.
      cbv [bind ret]. rewrite <- !app_assoc. reflexivity.
    + rewrite bind_assoc.
      rewrite (bind_runs _ _ (runs_stop_instance_named inst env Hdue)).
      cbv [bind ret]. rewrite <- !app_assoc. reflexivity.
  - unfold ret. rewrite app_nil_r. reflexivity.
Qed.

Lemma runs_for_fold_Forall {A S} (P : A -> Prop) (xs : list A)
      (body : S -> A -> M S) (f : S -> A -> S) (ev : A -> list Event)
      (env : Env) :
  Forall P xs ->
  (forall acc x, P x -> runs (body acc x) env (f acc x) (ev x)) ->
  forall acc, runs (for_fold xs acc body) env (fold_left f xs acc)
                   (flat_map ev xs).
Proof.
  intros HP Hbody. induction HP as [|x xs Hx _ IH]; intro acc; simpl.
  - apply runs_ret.
  - eapply runs_bind; [apply Hbody, Hx | apply IH].
Qed.

Lemma tally_without_warning
      (stop warning : Z) (include_stopped : bool) (env : Env)
      (instances_vec : list Instance) (c0 : Counters) :
  Forall (fun inst => no_warning_due stop warning include_stopped env inst
                      = true) instances_vec ->
  warned (fold_left (tally stop warning include_stopped env)
                    instances_vec c0)
  = warned c0.
Proof.
  intro H. revert c0. induction H as [|inst l Hdue _ IH]; intro c0.
  - reflexivity.
  - cbn [fold_left]. rewrite IH. unfold tally, no_warning_due in *.
    destruct (in_scope include_stopped inst); [|reflexivity].
    simpl in Hdue.
    destruct (Qltb (effective_idle env inst) (inject_Z stop));
      [|reflexivity].
    apply negb_true_iff in Hdue. rewrite Hdue. reflexivity.
Qed.

Lemma Forall_idle_fetches (env : Env) (inst : Instance) :
  Forall (fun ev => is_aws_call ev || is_print ev = true)
         (idle_fetches env inst).
Proof.
  unfold idle_fetches, disk_fetches, network_fetches.
  destruct (is_Unknown (metric_idle env inst "EBSReadOps" "Count" _));
    destruct (is_Unknown (metric_idle env inst "EBSWriteOps" "Count" _));
    repeat constructor.
Qed.

(** X16.  The webhook is needed for warnings only.  When no listed instance
    is due a warning and every instance to stop has a name, a pass of the
    command line without [verbose] returns, webhook or not: it only asks EC2
    and CloudWatch and prints, one line per stop and the summary, which
    counts no warning. *)
Theorem webhook_is_needed_for_warnings_only
        (min_cpu min_disk min_network : Q) (stop warning : Z)
        (include_stopped : bool) (fuel : nat) (env : Env)
        (pages : list (string * list (list InstanceDict))) :
  paginates (describe_instances env) "" pages ->
  (List.length pages <= fuel)%nat ->
  stop <= REPORTING_LOOKBACK_TIME_HOURS ->
  warning <= REPORTING_LOOKBACK_TIME_HOURS ->
  Forall (fun inst => no_warning_due stop warning include_stopped env inst
                      = true)
         (instances_of_pages min_cpu min_disk min_network pages) ->
  exists evs c,
    runs (main min_cpu min_disk min_network stop warning false include_stopped
               None fuel)
         env tt (evs ++ [print (summary_line c)]) /\
    Forall (fun ev => is_aws_call ev || is_print ev = true) evs /\
    warned c = 0.
Proof.
  intros Hpages Hfuel Hstop Hwarning Hdue.
  exists (map (fun p => ec2_describe_instances (fst p)) pages
          ++ flat_map (command_line_events stop include_stopped env)
                      (instances_of_pages min_cpu min_disk min_network pages)),
         (fold_left (tally stop warning include_stopped env)
                    (instances_of_pages min_cpu min_disk min_network pages)
                    (mkCounters 0 0 0)).
  split; [|split].
  - intro log. unfold main. cbn [truthy]. cbv iota. unfold reaper.
    apply Z.ltb_ge in Hstop, Hwarning. rewrite Hstop, Hwarning.
    rewrite (bind_Return _ _ _ _ _ _
               (list_instances_drains min_cpu min_disk min_network env pages
                                      fuel log Hpages Hfuel)).
    rewrite (bind_Return (ret _) _ env _ _ _ eq_refl).
    rewrite (bind_Return (when false _) _ env _ _ tt eq_refl).
    rewrite (bind_runs _ _
               (runs_for_fold_Forall _ _ _ _ _ env Hdue
                  (fun acc x Hx =>
                     runs_check_instance_command_line
                       stop warning include_stopped env acc x Hx)
                  (mkCounters 0 0 0))).
    unfold emit, summary_line. rewrite <- !app_assoc. reflexivity.
  - apply Forall_app. split.
    + clear Hpages Hfuel Hdue.
      induction pages as [|p l IH]; simpl;
        [constructor | constructor; [reflexivity | exact IH]].
    + clear Hdue.
      induction (instances_of_pages min_cpu min_disk min_network pages)
        as [|inst l IH]; cbn [flat_map]; [constructor|].
      apply Forall_app. split; [|exact IH].
      unfold command_line_events.
      destruct (in_scope include_stopped inst); [|constructor].
      apply Forall_app. split; [apply Forall_idle_fetches|].
      destruct (Qltb _ _); [apply Forall_idle_fetches | repeat constructor].
  - rewrite tally_without_warning by exact Hdue. reflexivity.
Qed.

Lemma webhook_is_needed_for_warnings_only_witness :
  exists evs c,
    runs (main 3 1 50 6 4 false false None 1) (uniform_env None 85) tt
         (evs ++ [print (summary_line c)]) /\
    warned c = 0.
Proof.
  destruct (webhook_is_needed_for_warnings_only
              3 1 50 6 4 false 1 (uniform_env None 85)
              [("", [[example_instance_dict]])])
    as (evs & c & Hr & _ & Hw).
  - apply (paginates_last (describe_instances (uniform_env None 85)) "").
    reflexivity.
  - simpl. lia.
  - discriminate.
  - discriminate.
  - constructor; [vm_compute; reflexivity | constructor].
  - exists evs, c. split; assumption.
Defined.

(** ** Stopping an instance without a name *)

Lemma stop_instance_unnamed (inst : Instance) (env : Env) (log : list Event) :
  has_name inst = false ->
  exists e, stop_instance inst env log = (Raise e, log) /\
            (e = not_formattable \/ e = KeyError "Tags").
Proof.
  unfold has_name, stop_instance, Instance.__str__, Instance.name,
    Instance.format_s.
  destruct (Tags (instance_dict inst)) as [tags|].
  - destruct (Instance.first_Name tags) as [name|]; [discriminate|].
    intros _. eexists. split; [reflexivity | left; reflexivity].
  - intros _. eexists. split; [reflexivity | right; reflexivity].
Qed.

(** X22.  With the stop callback of the command line, an instance that is
    due a stop and has no name ends the pass: after one round of metric
    requests for it the callback raises [TypeError], or [KeyError] without
    tags, nothing is printed for it, and the instances that follow are not
    looked at. *)
Theorem stop_of_unnamed_instance_ends_the_pass
        (min_cpu min_disk min_network : Q) (stop warning : Z)
        (include_stopped : bool) (warning_callback : Instance -> M unit)
        (fuel : nat) (env : Env) (log log0 log1 : list Event)
        (l1 l2 : list Instance) (inst : Instance) (c1 : Counters) :
  stop <= REPORTING_LOOKBACK_TIME_HOURS ->
  warning <= REPORTING_LOOKBACK_TIME_HOURS ->
  list_instances min_cpu min_disk min_network fuel env log
  = (Return (l1 ++ inst :: l2), log0) ->
  for_fold l1 (mkCounters 0 0 0)
           (check_instance stop warning false include_stopped
                           warning_callback stop_instance)
           env log0
  = (Return c1, log1) ->
  Instance.is_running inst || include_stopped = true ->
  (inject_Z stop <= effective_idle env inst)%Q ->
  has_name inst = false ->
  exists e,
    reaper min_cpu min_disk min_network stop warning false include_stopped
           warning_callback stop_instance fuel env log
    = (Raise e, log1 ++ idle_fetches env inst) /\
    (e = not_formattable \/ e = KeyError "Tags").
Proof.
  intros Hstop Hwarning Hlist Hprefix Hscope Hidle Hname.
  destruct (stop_instance_unnamed inst env (log1 ++ idle_fetches env inst) Hname)
    as (e & Hraise & He).
  exists e. split; [|exact He].
  unfold reaper.
  apply Z.ltb_ge in Hstop, Hwarning. rewrite Hstop, Hwarning.
  rewrite (bind_Return _ _ _ _ _ _ Hlist).
  rewrite (bind_Return (ret _) _ env log0 log0 _ eq_refl).
  rewrite (bind_Return (when false _) _ env log0 log0 tt eq_refl).
  apply bind_Raise.
  eapply for_fold_Raise; [exact Hprefix|].
  unfold check_instance. rewrite Hscope.
  rewrite (bind_runs _ log1 (runs_idle_period_hours env inst)).
  apply Qltb_ge in Hidle. rewrite Hidle.
  apply bind_Raise, bind_Raise, Hraise.
Qed.

Lemma stop_of_unnamed_instance_ends_the_pass_witness :
  exists e,
    reaper 3 1 50 6 4 false false slack_warn stop_instance 2
           two_page_idle_env []
    = (Raise e,
       ([ec2_describe_instances ""; ec2_describe_instances "page-2"]
          ++ idle_fetches two_page_idle_env example_instance
          ++ [print [FStr "Stopping instance ";
                     FStr (instance_string example_instance)]])
       ++ idle_fetches two_page_idle_env unnamed_instance).
Proof.
  destruct (stop_of_unnamed_instance_ends_the_pass
              3 1 50 6 4 false slack_warn 2 two_page_idle_env []
              [ec2_describe_instances ""; ec2_describe_instances "page-2"]
              ([ec2_describe_instances ""; ec2_describe_instances "page-2"]
                 ++ idle_fetches two_page_idle_env example_instance
                 ++ [print [FStr "Stopping instance ";
                            FStr (instance_string example_instance)]])
              [example_instance] [] unnamed_instance (mkCounters 0 1 1))
    as (e & Hr & _).
  - discriminate.
  - discriminate.
  - vm_compute. reflexivity.
  - vm_compute. reflexivity.
  - reflexivity.
  - vm_compute. discriminate.
  - reflexivity.
  - exists e. exact Hr.
Defined.
